(** * drone-artifactory: the plugin's [Exec], embedded and verified

    The plugin (plugin/plugin.go) turns a flat configuration record into one
    invocation of the [jfrog] command-line tool.  [Exec] sleeps, validates the
    configuration, assembles the command line, optionally writes a PEM
    certificate to disk and finally runs the tool through the platform shell.

    The embedding is shallow.  Go strings are [string], Go [int]s are [Z],
    Go [error] values are an inductive type, and the effects of [Exec]
    (processes started, lines printed, files and directories created) are
    threaded through a small state-and-error monad over a [World].

    What the program cannot control is a [Host]: the platform, the inherited
    environment, the lexical path functions of the library, and which system
    calls and child processes fail.  The model of the operating system is
    deliberately small, and these are its limits:
    - the file system is a finite map from path strings to files and
      directories, without links: a path is the string the program passes,
      and two spellings of one file are two keys, so the worlds meant are
      those whose paths are in canonical form; a permission is the argument
      of the call that created the entry (no umask);
    - [os.Stat] fails because nothing is at the path, because a proper
      ancestor of the path is a file, or because the host denies the search;
    - [os.MkdirAll] makes the missing directories outermost first and stops
      at the first one it cannot make, keeping those it has made;
    - [os.WriteFile] fails on opening the file, with nothing changed, on
      writing, with only a prefix of the data in the file, or on closing it;
    - child processes are opaque: a call of [Cmd.Run] is recorded in the
      event log and yields the outcome the host decides (a failed lookup of
      the executable included), and does not change the map. *)

From Stdlib Require Import ZArith String Ascii List Lia DecimalString.
From stdpp Require Import base strings gmap list.

Local Open Scope string_scope.
Local Open Scope Z_scope.
Local Open Scope list_scope.

(** ** Go values *)

(** The error numbers the model distinguishes. *)
Inductive Errno : Type :=
| ENOENT
| ENOTDIR
| EISDIR
| EACCES
| ENOSPC.

Definition Errno_Error (e : Errno) : string :=
  match e with
  | ENOENT => "no such file or directory"
  | ENOTDIR => "not a directory"
  | EISDIR => "is a directory"
  | EACCES => "permission denied"
  | ENOSPC => "no space left on device"
  end.

(** Go's [error] interface, by the dynamic types that occur in this program. *)
Inductive error : Type :=
| errorString (s : string)                    (* built by fmt.Errorf *)
| PathError (Op Path : string) (Err : Errno)  (* *fs.PathError, from package os *)
| NumError (Func Num : string)                (* *strconv.NumError, invalid syntax *)
| ExecError (msg : string).                   (* *exec.ExitError or *exec.Error *)

(** The [Error()] method.  (%q in the NumError text is approximated by plain
    quoting; no statement below depends on that text.) *)
Definition Error (e : error) : string :=
  match e with
  | errorString s => s
  | PathError op path err => op +:+ " " +:+ path +:+ ": " +:+ Errno_Error err
  | NumError f n => "strconv." +:+ f +:+ ": parsing " +:+ n +:+ ": invalid syntax"
  | ExecError msg => msg
  end.

(** The double-quote character, as a one-character string. *)
Definition dquote : string := String (ascii_of_nat 34) EmptyString.

(** [%d] of fmt.Sprintf on an [int]. *)
Definition fmt_d (n : Z) : string := NilZero.string_of_int (Z.to_int n).

Module fmt.
(** fmt.Errorf, applied to the already formatted message. *)
Definition Errorf (msg : string) : error := errorString msg.
End fmt.

Module strings.
(** strings.Join *)
Definition Join (elems : list string) (sep : string) : string :=
  String.concat sep elems.
End strings.

Module strconv.
(** strconv.ParseBool: accepts 1, t, T, TRUE, true, True, 0, f, F, FALSE,
    false, False; any other value is a syntax error. *)
Definition ParseBool (str : string) : bool * option error :=
  if existsb (String.eqb str) ["1"; "t"; "T"; "TRUE"; "true"; "True"]
  then (true, None)
  else if existsb (String.eqb str) ["0"; "f"; "F"; "FALSE"; "false"; "False"]
  then (false, None)
  else (false, Some (NumError "ParseBool" str)).

(** strconv.FormatBool *)
Definition FormatBool (b : bool) : string :=
  if b then "true" else "false".
End strconv.

Module exec.
(** The two standard streams a child can be wired to. *)
Inductive Stream : Type := os_Stdout | os_Stderr.

(** exec.Cmd, with the fields this program touches: the argument vector it
    traces, the environment and the two streams it sets.  The Path field,
    which exec.Command resolves through PATH and this program never reads,
    is left out; whether the executable is found and starts is part of the
    outcome of Cmd.Run. *)
Record Cmd : Type := mkCmd {
  Args : list string;
  Env : list string;
  Stdout : option Stream;
  Stderr : option Stream
}.

(** exec.Command(name, arg...) *)
Definition Command (name : string) (arg : list string) : Cmd :=
  {| Args := name :: arg; Env := []; Stdout := None; Stderr := None |}.

Definition set_Env (c : Cmd) (env : list string) : Cmd :=
  {| Args := Args c; Env := env; Stdout := Stdout c; Stderr := Stderr c |}.

Definition set_Stdout (c : Cmd) (s : Stream) : Cmd :=
  {| Args := Args c; Env := Env c; Stdout := Some s; Stderr := Stderr c |}.

Definition set_Stderr (c : Cmd) (s : Stream) : Cmd :=
  {| Args := Args c; Env := Env c; Stdout := Stdout c; Stderr := Some s |}.
End exec.

(** ** The host and the world *)

(** How os.WriteFile can fail on a path: on opening the file, with nothing
    created or changed; on writing, with the file created or truncated and
    only the first [written] characters of the data in it; or on closing
    the file, after the data were written. *)
Inductive WriteFault : Type :=
| OpenFails (errno : Errno)
| WriteFails (errno : Errno) (written : nat)
| CloseFails (errno : Errno).

(** What the plugin cannot control: the platform it was built for, the
    environment it inherits, the library's lexical path functions, and which
    system calls and child processes fail.  Every theorem below quantifies
    over all hosts. *)
Record Host : Type := mkHost {
  GOOS : string;                           (* runtime.GOOS *)
  Environ : list string;                   (* os.Environ() *)
  Dir : string -> string;                  (* filepath.Dir *)
  parents : string -> list string;         (* proper ancestors, outermost first *)
  unsearchable : string -> bool;           (* a directory on the way to this
                                              path cannot be searched *)
  mkdir_fault : string -> option Errno;    (* Mkdir of this directory fails *)
  write_fault : string -> option WriteFault; (* WriteFile fails on this path *)
  run_outcome : exec.Cmd -> option error   (* what Cmd.Run returns *)
}.

(** A file-system entry.  [perm] is the permission argument of the call that
    created the entry (the process umask is not modelled). *)
Inductive Node : Type :=
| File (data : string) (perm : Z)
| Directory (perm : Z).

(** The observable actions, in the order they happen. *)
Inductive Event : Type :=
| EvPrintf (format : string) (a : list string)   (* a write to os.Stdout *)
| EvRun (c : exec.Cmd)                           (* Cmd.Run is called on c *)
| EvStat (name : string)
| EvMkdirAll (path : string) (perm : Z)
| EvWriteFile (name data : string) (perm : Z).

Record World : Type := mkWorld {
  fs : gmap string Node;
  events : list Event
}.

Definition emit (e : Event) (w : World) : World :=
  {| fs := fs w; events := events w ++ [e] |}.

Definition set_fs (m : gmap string Node) (w : World) : World :=
  {| fs := m; events := events w |}.

(** ** The monad: state passing, with Go's early [return err] as [throw] *)

Definition M (A : Type) : Type := World -> (error + A) * World.

Definition ret {A : Type} (a : A) : M A := fun w => (inr a, w).

Definition throw {A : Type} (e : error) : M A := fun w => (inl e, w).

Definition bind {A B : Type} (m : M A) (k : A -> M B) : M B :=
  fun w =>
    match m w with
    | (inl e, w') => (inl e, w')
    | (inr a, w') => k a w'
    end.

Definition act (e : Event) : M unit := fun w => (inr tt, emit e w).

Declare Scope go_scope.
Delimit Scope go_scope with go.
Notation "x <- m ;; k" := (bind m (fun x => k))
  (at level 100, m at next level, right associativity) : go_scope.
Notation "m ;; k" := (bind m (fun _ => k))
  (at level 100, right associativity) : go_scope.
Local Open Scope go_scope.

(** What the caller of a Go function returning [error] sees: [nil] or the
    error. *)
Definition returned {A : Type} (r : (error + A) * World) : option error :=
  match r.1 with
  | inl e => Some e
  | inr _ => None
  end.

(** ** Package os and os/exec, on the world *)

Module os.
(** Whether a file (not a directory) is at this name. *)
Definition is_file (m : gmap string Node) (name : string) : bool :=
  match m !! name with
  | Some (File _ _) => true
  | _ => false
  end.

(** Why os.Stat fails on a name, if it does: a proper ancestor is a file
    (not a directory), the search is denied, or nothing is there. *)
Definition stat (h : Host) (m : gmap string Node) (name : string) : option Errno :=
  if existsb (is_file m) (parents h name) then Some ENOTDIR
  else if unsearchable h name then Some EACCES
  else match m !! name with
       | Some _ => None
       | None => Some ENOENT
       end.

(** os.Stat, reduced to its error result. *)
Definition Stat (h : Host) (name : string) : M (option error) :=
  fun w =>
    (inr (option_map (PathError "stat" name) (stat h (fs w) name)),
     emit (EvStat name) w).

(** os.IsNotExist *)
Definition IsNotExist (err : option error) : bool :=
  match err with
  | Some (PathError _ _ ENOENT) => true
  | _ => false
  end.

(** One directory of a MkdirAll chain: kept when it is there, made with
    [perm] when it is missing, an error when the name is taken by a file or
    the directory cannot be made.  After an error nothing more is done. *)
Definition ensure_dir (h : Host) (perm : Z)
    (acc : gmap string Node * option error) (d : string)
  : gmap string Node * option error :=
  match acc with
  | (m, Some e) => (m, Some e)
  | (m, None) =>
      match m !! d with
      | Some (Directory _) => (m, None)
      | Some (File _ _) => (m, Some (PathError "mkdir" d ENOTDIR))
      | None =>
          match mkdir_fault h d with
          | Some errno => (m, Some (PathError "mkdir" d errno))
          | None => (<[d := Directory perm]> m, None)
          end
      end
  end.

(** What os.MkdirAll does to the file system, and its error result: the
    path and its missing parents are made, outermost first; the error names
    the first directory that could not be made, and the directories made
    before it stay. *)
Definition mkdirAll (h : Host) (path : string) (perm : Z) (m : gmap string Node)
  : gmap string Node * option error :=
  fold_left (ensure_dir h perm) (parents h path ++ [path]) (m, None).

(** os.MkdirAll *)
Definition MkdirAll (h : Host) (path : string) (perm : Z) : M (option error) :=
  fun w =>
    (inr (mkdirAll h path perm (fs w)).2,
     set_fs (mkdirAll h path perm (fs w)).1 (emit (EvMkdirAll path perm) w)).

(** What os.WriteFile does to the file system, and its error result: the
    file is created with [perm], or truncated with its permissions kept,
    and the data written to it. *)
Definition writeFile (h : Host) (name data : string) (perm : Z)
    (m : gmap string Node) : gmap string Node * option error :=
  match write_fault h name with
  | Some (OpenFails errno) => (m, Some (PathError "open" name errno))
  | fault =>
      match m !! name with
      | Some (Directory _) => (m, Some (PathError "open" name EISDIR))
      | existing =>
          let p := match existing with Some (File _ p) => p | _ => perm end in
          match fault with
          | Some (WriteFails errno written) =>
              (<[name := File (String.substring 0 written data) p]> m,
               Some (PathError "write" name errno))
          | Some (CloseFails errno) =>
              (<[name := File data p]> m, Some (PathError "close" name errno))
          | _ => (<[name := File data p]> m, None)
          end
      end
  end.

(** os.WriteFile *)
Definition WriteFile (h : Host) (name data : string) (perm : Z) : M (option error) :=
  fun w =>
    (inr (writeFile h name data perm (fs w)).2,
     set_fs (writeFile h name data perm (fs w)).1
            (emit (EvWriteFile name data perm) w)).
End os.

(** Cmd.Run: the call is recorded; its outcome is the host's. *)
Definition Cmd_Run (h : Host) (c : exec.Cmd) : M (option error) :=
  fun w => (inr (run_outcome h c), emit (EvRun c) w).

(** ** plugin.go *)

(** Args provides plugin execution arguments.  (The embedded Pipeline struct
    is declared in another file and is never read here.) *)
Record Args : Type := mkArgs {
  Level : string;
  Username : string;
  Password : string;
  APIKey : string;
  AccessToken : string;
  URL : string;
  Source : string;
  Target : string;
  Retries : Z;
  Flat : string;
  Spec : string;
  Threads : Z;
  SpecVars : string;
  Insecure : string;
  PEMFileContents : string;
  PEMFilePath : string
}.

(** context.Context is never consulted. *)
Definition Context : Type := unit.

Definition getShell (h : Host) : string * string :=
  if String.eqb (GOOS h) "windows" then ("powershell", "-Command")
  else ("sh", "-c").

Definition getSleepCommand (h : Host) : string :=
  if String.eqb (GOOS h) "windows" then "Start-Sleep 600"
  else "sleep 600".

Definition getJfrogBin (h : Host) : string :=
  if String.eqb (GOOS h) "windows" then "C:/bin/jfrog.exe"
  else "jfrog".

Definition getEnvPrefix (h : Host) : string :=
  if String.eqb (GOOS h) "windows" then "$Env:"
  else "$".

Definition parseBoolOrDefault (defaultValue : bool) (s : string) : bool :=
  let '(result, err) := strconv.ParseBool s in
  match err with
  | Some _ => defaultValue
  | None => result
  end.

(** trace writes the command's argument vector to stdout. *)
Definition trace (cmd : exec.Cmd) : M unit :=
  act (EvPrintf "+ %s\n" [strings.Join (exec.Args cmd) " "]).

Definition putSleep (h : Host) : M unit :=
  let cmdStr := getSleepCommand h in
  let '(shell, shArg) := getShell h in
  let cmd := exec.Command shell [shArg; cmdStr] in
  let cmd := exec.set_Env cmd (Environ h) in
  let cmd := exec.set_Stdout cmd exec.os_Stdout in
  let cmd := exec.set_Stderr cmd exec.os_Stderr in
  trace cmd ;;
  _ <- Cmd_Run h cmd ;;
  ret tt.

(** Exec executes the plugin. *)
Definition Exec (h : Host) (ctx : Context) (args : Args) : M unit :=
  (* sleep of 10 minutes *)
  putSleep h ;;
  (if String.eqb (URL args) ""
   then throw (fmt.Errorf "url needs to be set") else ret tt) ;;
  let cmdArgs := [getJfrogBin h; "rt"; "u"; "--url " +:+ URL args] in
  let cmdArgs :=
    if negb (Z.eqb (Retries args) 0)
    then cmdArgs ++ ["--retries=" +:+ fmt_d (Retries args)]
    else cmdArgs in
  (* Set authentication params *)
  let envPrefix := getEnvPrefix h in
  cmdArgs <-
    (if negb (String.eqb (Username args) "") && negb (String.eqb (Password args) "")
     then ret ((cmdArgs ++ ["--user " +:+ envPrefix +:+ "PLUGIN_USERNAME"])
                 ++ ["--password " +:+ envPrefix +:+ "PLUGIN_PASSWORD"])
     else if negb (String.eqb (APIKey args) "")
     then ret (cmdArgs ++ ["--apikey " +:+ envPrefix +:+ "PLUGIN_API_KEY"])
     else if negb (String.eqb (AccessToken args) "")
     then ret (cmdArgs ++ ["--access-token " +:+ envPrefix +:+ "PLUGIN_ACCESS_TOKEN"])
     else throw (fmt.Errorf
       "either username/password, api key or access token needs to be set")) ;;
  let flat := parseBoolOrDefault false (Flat args) in
  let cmdArgs := cmdArgs ++ ["--flat=" +:+ strconv.FormatBool flat] in
  let cmdArgs :=
    if Z.ltb 0 (Threads args)
    then cmdArgs ++ ["--threads=" +:+ fmt_d (Threads args)]
    else cmdArgs in
  (* Set insecure flag *)
  let insecure := parseBoolOrDefault false (Insecure args) in
  let cmdArgs := if insecure then cmdArgs ++ ["--insecure-tls"] else cmdArgs in
  (* create pem file *)
  (if negb (String.eqb (PEMFileContents args) "") && negb insecure
   then
     (* figure out path to write pem file *)
     let path :=
       if String.eqb (PEMFilePath args) ""
       then
         if String.eqb (GOOS h) "windows"
         then "C:/users/ContainerAdministrator/.jfrog/security/certs/cert.pem"
         else "/root/.jfrog/security/certs/cert.pem"
       else PEMFilePath args in
     act (EvPrintf "Creating pem file at %q\n" [path]) ;;
     (* write pem contents to path *)
     err <- os.Stat h path ;;
     if os.IsNotExist err
     then
       (* remove filename from path *)
       let dir := Dir h path in
       pemFolderErr <- os.MkdirAll h dir 448 (* 0700 *) ;;
       match pemFolderErr with
       | Some e => throw (fmt.Errorf ("error creating pem folder: " +:+ Error e))
       | None =>
           (* write pem contents *)
           pemWriteErr <- os.WriteFile h path (PEMFileContents args) 384 (* 0600 *) ;;
           match pemWriteErr with
           | Some e => throw (fmt.Errorf ("error writing pem file: " +:+ Error e))
           | None => act (EvPrintf "Successfully created pem file at %q\n" [path])
           end
       end
     else ret tt
   else ret tt) ;;
  (* Take in spec file or use source/target arguments *)
  cmdArgs <-
    (if negb (String.eqb (Spec args) "")
     then
       let cmdArgs := cmdArgs ++ ["--spec=" +:+ Spec args] in
       if negb (String.eqb (SpecVars args) "")
       then ret (cmdArgs ++ ["--spec-vars='" +:+ SpecVars args +:+ "'"])
       else ret cmdArgs
     else
       if String.eqb (Source args) ""
       then throw (fmt.Errorf "source file needs to be set")
       else if String.eqb (Target args) ""
       then throw (fmt.Errorf "target path needs to be set")
       else ret (cmdArgs ++ [dquote +:+ Source args +:+ dquote; Target args])) ;;
  let cmdStr := strings.Join cmdArgs " " in
  let '(shell, shArg) := getShell h in
  let cmd := exec.Command shell [shArg; cmdStr] in
  let cmd := exec.set_Env cmd (Environ h) in
  let cmd := exec.set_Env cmd (exec.Env cmd ++ ["JFROG_CLI_OFFER_CONFIG=false"]) in
  let cmd := exec.set_Stdout cmd exec.os_Stdout in
  let cmd := exec.set_Stderr cmd exec.os_Stderr in
  trace cmd ;;
  err <- Cmd_Run h cmd ;;
  match err with
  | Some e => throw e
  | None => ret tt
  end.

(** ** Concrete hosts, for running the model *)

(** The elements of a path between its separators, empty ones included. *)
Fixpoint elements (is_sep : ascii -> bool) (cur s : string) : list string :=
  match s with
  | EmptyString => [cur]
  | String c s' =>
      if is_sep c then cur :: elements is_sep "" s'
      else elements is_sep (cur +:+ String c EmptyString) s'
  end.

(** One element met by filepath.Clean, [acc] being the cleaned elements so
    far, innermost first: empty elements and dots are dropped, and a
    double dot takes back the element before it, if there is one. *)
Definition clean_step (rooted : bool) (acc : list string) (e : string)
  : list string :=
  if String.eqb e "" || String.eqb e "." then acc
  else if String.eqb e ".." then
    match acc with
    | top :: rest => if String.eqb top ".." then e :: acc else rest
    | [] => if rooted then [] else [e]
    end
  else e :: acc.

(** filepath.Dir on the part of a path after its volume name: all but the
    last element, cleaned, and joined by the separator [sep]. *)
Definition clean_dir (is_sep : ascii -> bool) (sep : string) (path : string)
  : string :=
  let rooted := match path with String c _ => is_sep c | EmptyString => false end in
  let kept := rev (fold_left (clean_step rooted)
                             (removelast (elements is_sep "" path)) []) in
  let body := String.concat sep kept in
  if rooted then sep +:+ body
  else if String.eqb body "" then "." else body.

(** The prefixes of a path that end just before a separator, the empty one
    and the volume name left out: the proper ancestors, outermost first. *)
Fixpoint prefixes (is_sep : ascii -> bool) (is_root : string -> bool)
    (pre s : string) : list string :=
  match s with
  | EmptyString => []
  | String c s' =>
      (if is_sep c && negb (is_root pre) then [pre] else [])
        ++ prefixes is_sep is_root (pre +:+ String c EmptyString) s'
  end.

Definition is_slash (c : ascii) : bool := Ascii.eqb c "/".

(** filepath.Dir and the proper ancestors of a path, on a POSIX system. *)
Definition posix_Dir (path : string) : string := clean_dir is_slash "/" path.

Definition posix_parents (path : string) : list string :=
  prefixes is_slash (String.eqb "") "" path.

(** On Windows the slash and the backslash (character 92) both separate,
    the backslash is the separator of the result, and a drive letter with
    its colon is a volume name.  (Other volume names, such as UNC shares,
    are taken for ordinary elements.) *)
Definition is_slash_or_backslash (c : ascii) : bool :=
  Ascii.eqb c "/" || Ascii.eqb c "092".

Definition is_letter (c : ascii) : bool :=
  let n := nat_of_ascii c in
  ((65 <=? n)%nat && (n <=? 90)%nat) || ((97 <=? n)%nat && (n <=? 122)%nat).

Definition is_drive (s : string) : bool :=
  match s with
  | String c (String colon EmptyString) => is_letter c && Ascii.eqb colon ":"
  | _ => false
  end.

Definition volume_length (path : string) : nat :=
  if is_drive (String.substring 0 2 path) then 2%nat else 0%nat.

Definition windows_Dir (path : string) : string :=
  let n := volume_length path in
  String.substring 0 n path
    +:+ clean_dir is_slash_or_backslash (String "092" EmptyString)
          (String.substring n (String.length path - n) path).

Definition windows_parents (path : string) : list string :=
  prefixes is_slash_or_backslash
           (fun pre => String.eqb pre "" || is_drive pre) "" path.

(** A Linux host on which nothing fails. *)
Definition linux : Host :=
  {| GOOS := "linux";
     Environ := ["PATH=/usr/local/bin:/usr/bin:/bin";
                 "PLUGIN_USERNAME=u"; "PLUGIN_PASSWORD=p"];
     Dir := posix_Dir;
     parents := posix_parents;
     unsearchable := fun _ => false;
     mkdir_fault := fun _ => None;
     write_fault := fun _ => None;
     run_outcome := fun _ => None |}.

(** A Windows host on which nothing fails. *)
Definition windows : Host :=
  {| GOOS := "windows";
     Environ := ["PATH=C:\Windows\System32;C:\Windows\System32\WindowsPowerShell\v1.0;C:\bin";
                 "PLUGIN_USERNAME=u"; "PLUGIN_PASSWORD=p"];
     Dir := windows_Dir;
     parents := windows_parents;
     unsearchable := fun _ => false;
     mkdir_fault := fun _ => None;
     write_fault := fun _ => None;
     run_outcome := fun _ => None |}.

(** A Linux host on which no directory can be made and no file opened. *)
Definition read_only : Host :=
  {| GOOS := "linux";
     Environ := ["PATH=/usr/local/bin:/usr/bin:/bin"];
     Dir := posix_Dir;
     parents := posix_parents;
     unsearchable := fun _ => false;
     mkdir_fault := fun _ => Some EACCES;
     write_fault := fun _ => Some (OpenFails EACCES);
     run_outcome := fun _ => None |}.

Definition empty_world : World := {| fs := ∅; events := [] |}.

Definition no_args : Args :=
  {| Level := ""; Username := ""; Password := ""; APIKey := "";
     AccessToken := ""; URL := ""; Source := ""; Target := ""; Retries := 0;
     Flat := ""; Spec := ""; Threads := 0; SpecVars := ""; Insecure := "";
     PEMFileContents := ""; PEMFilePath := "" |}.

(** ** Observations on a run *)

(** The processes started, oldest first. *)
Definition spawned (evs : list Event) : list exec.Cmd :=
  omap (fun e => match e with EvRun c => Some c | _ => None end) evs.

(** The file-system calls that create or change something. *)
Definition fs_writes (evs : list Event) : list Event :=
  List.filter (fun e => match e with
                        | EvMkdirAll _ _ | EvWriteFile _ _ _ => true
                        | _ => false
                        end) evs.

(** Every call into the file system, [Stat] included. *)
Definition fs_calls (evs : list Event) : list Event :=
  List.filter (fun e => match e with
                        | EvStat _ | EvMkdirAll _ _ | EvWriteFile _ _ _ => true
                        | _ => false
                        end) evs.

(** The command string a shell invocation carries: its third argument. *)
Definition script (c : exec.Cmd) : string := nth 2 (exec.Args c) "".

(** What one call of [Exec] adds to the event log. *)
Definition new_events (h : Host) (ctx : Context) (args : Args) (w : World)
  : list Event :=
  drop (length (events w)) (events (Exec h ctx args w).2).

(** ** The specification's vocabulary *)

(** The error taxonomy of the specification, by the messages of the code. *)
Definition MissingURL : error := errorString "url needs to be set".
Definition MissingCredentials : error :=
  errorString "either username/password, api key or access token needs to be set".
Definition MissingSource : error := errorString "source file needs to be set".
Definition MissingTarget : error := errorString "target path needs to be set".
Definition CertDirError (cause : error) : error :=
  errorString ("error creating pem folder: " +:+ Error cause).
Definition CertWriteError (cause : error) : error :=
  errorString ("error writing pem file: " +:+ Error cause).

(** The preliminary sleep, as the shell invocation the specification
    describes. *)
Definition sleepCmd (h : Host) : exec.Cmd :=
  {| exec.Args := if String.eqb (GOOS h) "windows"
                  then ["powershell"; "-Command"; "Start-Sleep 600"]
                  else ["sh"; "-c"; "sleep 600"];
     exec.Env := Environ h;
     exec.Stdout := Some exec.os_Stdout;
     exec.Stderr := Some exec.os_Stderr |}.

(** The upload invocation for a token list: the tokens joined by single
    spaces, handed to the platform shell, in the inherited environment plus
    the override that disables the tool's configuration prompt. *)
Definition uploadCmd (h : Host) (tokens : list string) : exec.Cmd :=
  {| exec.Args := if String.eqb (GOOS h) "windows"
                  then ["powershell"; "-Command"; strings.Join tokens " "]
                  else ["sh"; "-c"; strings.Join tokens " "];
     exec.Env := Environ h ++ ["JFROG_CLI_OFFER_CONFIG=false"];
     exec.Stdout := Some exec.os_Stdout;
     exec.Stderr := Some exec.os_Stderr |}.

(** The line [trace] prints for a command. *)
Definition traceLine (c : exec.Cmd) : Event :=
  EvPrintf "+ %s\n" [strings.Join (exec.Args c) " "].

(** The three authentication modes, in the specification's precedence. *)
Inductive CredentialMode : Type :=
| UserPassword
| ApiKey
| Token.

Definition credentialMode (args : Args) : option CredentialMode :=
  if negb (String.eqb (Username args) "") && negb (String.eqb (Password args) "")
  then Some UserPassword
  else if negb (String.eqb (APIKey args) "") then Some ApiKey
  else if negb (String.eqb (AccessToken args) "") then Some Token
  else None.

(** The flags of a mode: references to environment variables, never values. *)
Definition modeFlags (h : Host) (m : CredentialMode) : list string :=
  match m with
  | UserPassword => ["--user " +:+ getEnvPrefix h +:+ "PLUGIN_USERNAME";
                     "--password " +:+ getEnvPrefix h +:+ "PLUGIN_PASSWORD"]
  | ApiKey => ["--apikey " +:+ getEnvPrefix h +:+ "PLUGIN_API_KEY"]
  | Token => ["--access-token " +:+ getEnvPrefix h +:+ "PLUGIN_ACCESS_TOKEN"]
  end.

Definition retriesFlag (args : Args) : list string :=
  if Z.eqb (Retries args) 0 then [] else ["--retries=" +:+ fmt_d (Retries args)].

Definition flatFlag (args : Args) : string :=
  "--flat=" +:+ (if parseBoolOrDefault false (Flat args) then "true" else "false").

Definition threadsFlag (args : Args) : list string :=
  if Z.ltb 0 (Threads args) then ["--threads=" +:+ fmt_d (Threads args)] else [].

Definition insecureFlag (args : Args) : list string :=
  if parseBoolOrDefault false (Insecure args) then ["--insecure-tls"] else [].

(** Spec-file mode: the spec flag, then the single-quoted variables. *)
Definition specFlags (args : Args) : list string :=
  ("--spec=" +:+ Spec args)
    :: (if String.eqb (SpecVars args) "" then []
        else ["--spec-vars='" +:+ SpecVars args +:+ "'"]).

(** Source/target mode: the double-quoted source, then the target. *)
Definition positionals (args : Args) : list string :=
  [dquote +:+ Source args +:+ dquote; Target args].

(** The trailing tokens, or the validation error of the mode. *)
Definition modeArgs (args : Args) : error + list string :=
  if negb (String.eqb (Spec args) "") then inr (specFlags args)
  else if String.eqb (Source args) "" then inl MissingSource
  else if String.eqb (Target args) "" then inl MissingTarget
  else inr (positionals args).

(** The command line in the order the specification enumerates it. *)
Definition commandLine (h : Host) (args : Args) (creds tail : list string)
  : list string :=
  [getJfrogBin h; "rt"; "u"; "--url " +:+ URL args]
    ++ retriesFlag args
    ++ creds
    ++ [flatFlag args]
    ++ threadsFlag args
    ++ insecureFlag args
    ++ tail.

(** Where the certificate goes: the explicit path, or the platform default. *)
Definition pemPath (h : Host) (args : Args) : string :=
  if String.eqb (PEMFilePath args) ""
  then if String.eqb (GOOS h) "windows"
       then "C:/users/ContainerAdministrator/.jfrog/security/certs/cert.pem"
       else "/root/.jfrog/security/certs/cert.pem"
  else PEMFilePath args.

(** Provisioning is required when content is supplied and insecure is off. *)
Definition certRequired (args : Args) : bool :=
  negb (String.eqb (PEMFileContents args) "")
  && negb (parseBoolOrDefault false (Insecure args)).

(** The Certificate Provisioner of the specification as a step of its own:
    the block of [Exec] under its comment "create pem file", verbatim. *)
Definition provision (h : Host) (args : Args) : M unit :=
  if certRequired args
  then
    let path := pemPath h args in
    act (EvPrintf "Creating pem file at %q\n" [path]) ;;
    err <- os.Stat h path ;;
    if os.IsNotExist err
    then
      let dir := Dir h path in
      pemFolderErr <- os.MkdirAll h dir 448 ;;
      match pemFolderErr with
      | Some e => throw (fmt.Errorf ("error creating pem folder: " +:+ Error e))
      | None =>
          pemWriteErr <- os.WriteFile h path (PEMFileContents args) 384 ;;
          match pemWriteErr with
          | Some e => throw (fmt.Errorf ("error writing pem file: " +:+ Error e))
          | None => act (EvPrintf "Successfully created pem file at %q\n" [path])
          end
      end
    else ret tt
  else ret tt.

(** The world right after the sleep. *)
Definition slept (h : Host) (w : World) : World :=
  emit (EvRun (sleepCmd h)) (emit (traceLine (sleepCmd h)) w).

(** The Process Runner on a finished token list. *)
Definition invoke (h : Host) (tokens : list string) : M unit :=
  fun w =>
    (match run_outcome h (uploadCmd h tokens) with
     | Some e => inl e
     | None => inr tt
     end,
     emit (EvRun (uploadCmd h tokens)) (emit (traceLine (uploadCmd h tokens)) w)).

(** [Exec] as the specification stages it: sleep, validate the URL, select
    the credentials, provision the certificate, validate the mode, invoke. *)
Definition staged (h : Host) (args : Args) : M unit :=
  fun w =>
    if String.eqb (URL args) "" then (inl MissingURL, slept h w)
    else
      match credentialMode args with
      | None => (inl MissingCredentials, slept h w)
      | Some mode =>
          match provision h args (slept h w) with
          | (inl e, w2) => (inl e, w2)
          | (inr _, w2) =>
              match modeArgs args with
              | inl e => (inl e, w2)
              | inr tail => invoke h (commandLine h args (modeFlags h mode) tail) w2
              end
          end
      end.

(** ** Further vocabulary: steps, observations and sample configurations *)

(** The events of the certificate step up to and including its [Stat]. *)
Definition probed (h : Host) (args : Args) (w : World) : World :=
  emit (EvStat (pemPath h args))
       (emit (EvPrintf "Creating pem file at %q\n" [pemPath h args]) w).

(** The processes one call of [Exec] starts. *)
Definition started (h : Host) (ctx : Context) (args : Args) (w : World)
  : list exec.Cmd :=
  spawned (new_events h ctx args w).

(** The same host, with other outcomes for its child processes. *)
Definition with_run_outcome (h : Host) (f : exec.Cmd -> option error) : Host :=
  {| GOOS := GOOS h; Environ := Environ h; Dir := Dir h; parents := parents h;
     unsearchable := unsearchable h;
     mkdir_fault := mkdir_fault h; write_fault := write_fault h;
     run_outcome := f |}.

#[global] Instance Errno_eq_dec : EqDecision Errno.
Proof. solve_decision. Defined.

#[global] Instance Stream_eq_dec : EqDecision exec.Stream.
Proof. solve_decision. Defined.

#[global] Instance Cmd_eq_dec : EqDecision exec.Cmd.
Proof. solve_decision. Defined.

(** A sleep that fails, on an otherwise faultless Linux host. *)
Definition failing_sleep (c : exec.Cmd) : option error :=
  if decide (c = sleepCmd linux) then Some (ExecError "exit status 1") else None.

(** The end-to-end scenario of the specification. *)
Definition scenario : Args :=
  {| Level := ""; Username := "u"; Password := "p"; APIKey := "";
     AccessToken := ""; URL := "https://example.com";
     Source := "build/app.zip"; Target := "libs/app.zip"; Retries := 0;
     Flat := ""; Spec := ""; Threads := 0; SpecVars := ""; Insecure := "";
     PEMFileContents := ""; PEMFilePath := "" |}.

(** Two configurations that agree on every field but the four secrets. *)
Definition only_secrets_differ (a b : Args) : Prop :=
  Level a = Level b /\ URL a = URL b /\ Source a = Source b /\
  Target a = Target b /\ Retries a = Retries b /\ Flat a = Flat b /\
  Spec a = Spec b /\ Threads a = Threads b /\ SpecVars a = SpecVars b /\
  Insecure a = Insecure b /\ PEMFileContents a = PEMFileContents b /\
  PEMFilePath a = PEMFilePath b.

(** The command strings of the processes a run starts. *)
Definition scripts (h : Host) (ctx : Context) (args : Args) (w : World)
  : list string :=
  map script (started h ctx args w).

(** The scenario with an API key next to the password, and no user name. *)
Definition keyed : Args :=
  {| Level := ""; Username := ""; Password := "p"; APIKey := "k";
     AccessToken := ""; URL := "https://example.com";
     Source := "build/app.zip"; Target := "libs/app.zip"; Retries := 0;
     Flat := ""; Spec := ""; Threads := 0; SpecVars := ""; Insecure := "";
     PEMFileContents := ""; PEMFilePath := "" |}.

(** The same, with a user name. *)
Definition keyed_with_user : Args :=
  {| Level := ""; Username := "u"; Password := "p"; APIKey := "k";
     AccessToken := ""; URL := "https://example.com";
     Source := "build/app.zip"; Target := "libs/app.zip"; Retries := 0;
     Flat := ""; Spec := ""; Threads := 0; SpecVars := ""; Insecure := "";
     PEMFileContents := ""; PEMFilePath := "" |}.

(** [Exec] runs the upload tool on these tokens, after the sleep, and
    returns the tool's outcome as it is. *)
Definition uploads (h : Host) (ctx : Context) (args : Args) (w : World)
    (tokens : list string) : Prop :=
  started h ctx args w = [sleepCmd h; uploadCmd h tokens] /\
  returned (Exec h ctx args w) = run_outcome h (uploadCmd h tokens).

(** The configuration with other source and target paths. *)
Definition with_paths (args : Args) (source target : string) : Args :=
  {| Level := Level args; Username := Username args; Password := Password args;
     APIKey := APIKey args; AccessToken := AccessToken args; URL := URL args;
     Source := source; Target := target; Retries := Retries args;
     Flat := Flat args; Spec := Spec args; Threads := Threads args;
     SpecVars := SpecVars args; Insecure := Insecure args;
     PEMFileContents := PEMFileContents args; PEMFilePath := PEMFilePath args |}.

(** Whatever a run starts besides the sleep is the upload, and it carries
    these credential flags, in the credential position, and no others. *)
Definition selects (h : Host) (ctx : Context) (args : Args) (w : World)
    (creds : list string) : Prop :=
  (forall tail,
     modeArgs args = inr tail ->
     returned (provision h args (slept h w)) = None ->
     uploads h ctx args w (commandLine h args creds tail)) /\
  (forall c,
     In c (started h ctx args w) ->
     c = sleepCmd h \/ exists tail, c = uploadCmd h (commandLine h args creds tail)).

(** A spec-file configuration, with leftovers in source and target. *)
Definition with_spec : Args :=
  {| Level := ""; Username := ""; Password := ""; APIKey := "k";
     AccessToken := ""; URL := "https://example.com";
     Source := "ignored"; Target := ""; Retries := 0;
     Flat := "true"; Spec := "upload.json"; Threads := 0;
     SpecVars := "a=1;b=2"; Insecure := "";
     PEMFileContents := ""; PEMFilePath := "" |}.

(** What the certificate step adds to the event log. *)
Definition provision_events (h : Host) (args : Args) (w : World) : list Event :=
  drop (length (events w)) (events (provision h args w).2).

(** What [Exec] returns once the certificate step is behind it: the
    validation error of the mode, or the outcome of the upload. *)
Definition remaining_outcome (h : Host) (args : Args) (mode : CredentialMode)
  : option error :=
  match modeArgs args with
  | inl e => Some e
  | inr tail => run_outcome h (uploadCmd h (commandLine h args (modeFlags h mode) tail))
  end.

(** The scenario with a certificate to install. *)
Definition with_cert : Args :=
  {| Level := ""; Username := "u"; Password := "p"; APIKey := "";
     AccessToken := ""; URL := "https://example.com";
     Source := "build/app.zip"; Target := "libs/app.zip"; Retries := 0;
     Flat := ""; Spec := ""; Threads := 0; SpecVars := ""; Insecure := "";
     PEMFileContents := "CERT"; PEMFilePath := "" |}.

(** The same certificate, but with insecure transport requested. *)
Definition insecure_cert : Args :=
  {| Level := ""; Username := "u"; Password := "p"; APIKey := "";
     AccessToken := ""; URL := "https://example.com";
     Source := "build/app.zip"; Target := "libs/app.zip"; Retries := 0;
     Flat := ""; Spec := ""; Threads := 0; SpecVars := ""; Insecure := "true";
     PEMFileContents := "CERT"; PEMFilePath := "" |}.


(** ** Vocabulary for the whole run *)

(** The same host built for another platform. *)
Definition with_GOOS (h : Host) (goos : string) : Host :=
  {| GOOS := goos; Environ := Environ h; Dir := Dir h; parents := parents h;
     unsearchable := unsearchable h;
     mkdir_fault := mkdir_fault h; write_fault := write_fault h;
     run_outcome := run_outcome h |}.

(** The configuration with other spec variables. *)
Definition with_SpecVars (args : Args) (vars : string) : Args :=
  {| Level := Level args; Username := Username args; Password := Password args;
     APIKey := APIKey args; AccessToken := AccessToken args; URL := URL args;
     Source := Source args; Target := Target args; Retries := Retries args;
     Flat := Flat args; Spec := Spec args; Threads := Threads args;
     SpecVars := vars; Insecure := Insecure args;
     PEMFileContents := PEMFileContents args; PEMFilePath := PEMFilePath args |}.

(** The configuration with another certificate and destination. *)
Definition with_certificate (args : Args) (content path : string) : Args :=
  {| Level := Level args; Username := Username args; Password := Password args;
     APIKey := APIKey args; AccessToken := AccessToken args; URL := URL args;
     Source := Source args; Target := Target args; Retries := Retries args;
     Flat := Flat args; Spec := Spec args; Threads := Threads args;
     SpecVars := SpecVars args; Insecure := Insecure args;
     PEMFileContents := content; PEMFilePath := path |}.

(** The spellings strconv.ParseBool accepts. *)
Definition true_spellings : list string := ["1"; "t"; "T"; "TRUE"; "true"; "True"].
Definition false_spellings : list string := ["0"; "f"; "F"; "FALSE"; "false"; "False"].

(** The ways the certificate step can end: what it returns, what it adds to
    the event log, and the file system it leaves, from the one it found. *)
Inductive Provisioned (h : Host) (args : Args) (m0 : gmap string Node)
  : option error -> list Event -> gmap string Node -> Prop :=
| NotRequired :
    certRequired args = false ->
    Provisioned h args m0 None [] m0
| NotMissing :
    certRequired args = true ->
    os.stat h m0 (pemPath h args) <> Some ENOENT ->
    Provisioned h args m0 None
      [EvPrintf "Creating pem file at %q\n" [pemPath h args];
       EvStat (pemPath h args)]
      m0
| NoDirectory (m : gmap string Node) (e : error) :
    certRequired args = true ->
    os.stat h m0 (pemPath h args) = Some ENOENT ->
    os.mkdirAll h (Dir h (pemPath h args)) 448 m0 = (m, Some e) ->
    Provisioned h args m0 (Some (CertDirError e))
      [EvPrintf "Creating pem file at %q\n" [pemPath h args];
       EvStat (pemPath h args);
       EvMkdirAll (Dir h (pemPath h args)) 448]
      m
| NotWritten (m m' : gmap string Node) (e : error) :
    certRequired args = true ->
    os.stat h m0 (pemPath h args) = Some ENOENT ->
    os.mkdirAll h (Dir h (pemPath h args)) 448 m0 = (m, None) ->
    os.writeFile h (pemPath h args) (PEMFileContents args) 384 m = (m', Some e) ->
    Provisioned h args m0 (Some (CertWriteError e))
      [EvPrintf "Creating pem file at %q\n" [pemPath h args];
       EvStat (pemPath h args);
       EvMkdirAll (Dir h (pemPath h args)) 448;
       EvWriteFile (pemPath h args) (PEMFileContents args) 384]
      m'
| Written (m : gmap string Node) :
    certRequired args = true ->
    os.stat h m0 (pemPath h args) = Some ENOENT ->
    m0 !! pemPath h args = None ->
    os.mkdirAll h (Dir h (pemPath h args)) 448 m0 = (m, None) ->
    m !! pemPath h args = None ->
    Provisioned h args m0 None
      [EvPrintf "Creating pem file at %q\n" [pemPath h args];
       EvStat (pemPath h args);
       EvMkdirAll (Dir h (pemPath h args)) 448;
       EvWriteFile (pemPath h args) (PEMFileContents args) 384;
       EvPrintf "Successfully created pem file at %q\n" [pemPath h args]]
      (<[pemPath h args := File (PEMFileContents args) 384]> m).

(** The ways a run of [Exec] can end: what it returns, what it adds to the
    event log, and the file system it leaves. *)
Inductive Ran (h : Host) (args : Args) (w : World)
  : option error -> list Event -> gmap string Node -> Prop :=
| NoURL :
    URL args = "" ->
    Ran h args w (Some MissingURL)
      [traceLine (sleepCmd h); EvRun (sleepCmd h)] (fs w)
| NoCredentials :
    URL args <> "" ->
    credentialMode args = None ->
    Ran h args w (Some MissingCredentials)
      [traceLine (sleepCmd h); EvRun (sleepCmd h)] (fs w)
| NoCertificate (mode : CredentialMode) (e : error) (cert : list Event)
    (m : gmap string Node) :
    URL args <> "" ->
    credentialMode args = Some mode ->
    Provisioned h args (fs w) (Some e) cert m ->
    Ran h args w (Some e)
      ([traceLine (sleepCmd h); EvRun (sleepCmd h)] ++ cert) m
| NoMode (mode : CredentialMode) (e : error) (cert : list Event)
    (m : gmap string Node) :
    URL args <> "" ->
    credentialMode args = Some mode ->
    Provisioned h args (fs w) None cert m ->
    modeArgs args = inl e ->
    Ran h args w (Some e)
      ([traceLine (sleepCmd h); EvRun (sleepCmd h)] ++ cert) m
| Uploaded (mode : CredentialMode) (tail : list string) (cert : list Event)
    (m : gmap string Node) :
    URL args <> "" ->
    credentialMode args = Some mode ->
    Provisioned h args (fs w) None cert m ->
    modeArgs args = inr tail ->
    Ran h args w
      (run_outcome h (uploadCmd h (commandLine h args (modeFlags h mode) tail)))
      ([traceLine (sleepCmd h); EvRun (sleepCmd h)] ++ cert ++
       [traceLine (uploadCmd h (commandLine h args (modeFlags h mode) tail));
        EvRun (uploadCmd h (commandLine h args (modeFlags h mode) tail))])
      m.

(** A world that already holds a file and a directory. *)
Definition stocked_world : World :=
  {| fs := <["/etc/hosts" := File "127.0.0.1 localhost" 420]>
             (<["/root" := Directory 493]> ∅);
     events := [] |}.

(** A certificate to install, but no credentials to upload with. *)
Definition cert_without_credentials : Args :=
  {| Level := ""; Username := "u"; Password := ""; APIKey := "";
     AccessToken := ""; URL := "https://example.com";
     Source := "build/app.zip"; Target := "libs/app.zip"; Retries := 0;
     Flat := ""; Spec := ""; Threads := 0; SpecVars := ""; Insecure := "";
     PEMFileContents := "CERT"; PEMFilePath := "" |}.

(** A world in which the home directory of the default certificate path is
    taken by a regular file. *)
Definition blocked_world : World :=
  {| fs := <["/root" := File "" 420]> ∅; events := [] |}.


(** A Linux host on which the third directory of the default chain cannot
    be made. *)
Definition no_security_directory : Host :=
  {| GOOS := "linux";
     Environ := ["PATH=/usr/local/bin:/usr/bin:/bin"];
     Dir := posix_Dir;
     parents := posix_parents;
     unsearchable := fun _ => false;
     mkdir_fault := fun d => if String.eqb d "/root/.jfrog/security"
                             then Some EACCES else None;
     write_fault := fun _ => None;
     run_outcome := fun _ => None |}.

(** The scenario with every optional flag set. *)
Definition tuned : Args :=
  {| Level := ""; Username := "u"; Password := "p"; APIKey := "";
     AccessToken := ""; URL := "https://example.com";
     Source := "build/app.zip"; Target := "libs/app.zip"; Retries := 3;
     Flat := "T"; Spec := ""; Threads := 12; SpecVars := ""; Insecure := "1";
     PEMFileContents := ""; PEMFilePath := "" |}.

(** ** The model at work *)

Example dquote_is_the_double_quote : dquote = String "034" "".
Proof. reflexivity. Qed.

Example fmt_d_negative : fmt_d (-3) = "-3" /\ fmt_d 0 = "0" /\ fmt_d 16 = "16".
Proof. repeat split; reflexivity. Qed.

Example parseBool_samples :
  parseBoolOrDefault false "true" = true /\
  parseBoolOrDefault false "T" = true /\
  parseBoolOrDefault false "yes" = false /\
  parseBoolOrDefault false "" = false /\
  parseBoolOrDefault true "0" = false.
Proof. repeat split; reflexivity. Qed.

(** filepath.Dir cleans what it returns. *)
Example posix_Dir_samples :
  posix_Dir "/root/.jfrog/security/certs/cert.pem" = "/root/.jfrog/security/certs" /\
  posix_Dir "/cert.pem" = "/" /\
  posix_Dir "cert.pem" = "." /\
  posix_Dir "a//b/cert.pem" = "a/b" /\
  posix_Dir "a/../b/cert.pem" = "b" /\
  posix_Dir "/tmp/./cert.pem" = "/tmp" /\
  posix_Dir "/" = "/" /\
  posix_parents "/root/.jfrog/security/certs"
    = ["/root"; "/root/.jfrog"; "/root/.jfrog/security"].
Proof. repeat split; reflexivity. Qed.

Example windows_Dir_samples :
  windows_Dir "C:/users/ContainerAdministrator/.jfrog/security/certs/cert.pem"
    = "C:\users\ContainerAdministrator\.jfrog\security\certs" /\
  windows_Dir "C:cert.pem" = "C:." /\
  windows_parents "C:\users\ContainerAdministrator\.jfrog"
    = ["C:\users"; "C:\users\ContainerAdministrator"].
Proof. repeat split; reflexivity. Qed.

(** The scenario on Windows: another shell, binary and variable prefix. *)
Example scenario_on_windows :
  map exec.Args (started windows tt scenario empty_world)
    = [["powershell"; "-Command"; "Start-Sleep 600"];
       ["powershell"; "-Command";
        "C:/bin/jfrog.exe rt u --url https://example.com "
          +:+ "--user $Env:PLUGIN_USERNAME --password $Env:PLUGIN_PASSWORD "
          +:+ "--flat=false " +:+ String "034" "build/app.zip"
          +:+ String "034" " libs/app.zip"]].
Proof. vm_compute. reflexivity. Qed.

(** A host on which no directory can be made: the error names the first
    directory of the chain, and nothing is left behind. *)
Example read_only_host :
  returned (Exec read_only tt with_cert empty_world)
    = Some (errorString "error creating pem folder: mkdir /root: permission denied") /\
  fs (Exec read_only tt with_cert empty_world).2 = ∅ /\
  started read_only tt with_cert empty_world = [sleepCmd read_only].
Proof. repeat split; vm_compute; reflexivity. Qed.

(** A MkdirAll that fails half-way names the directory it could not make
    and leaves those it has made. *)
Example partial_mkdir :
  returned (Exec no_security_directory tt with_cert empty_world)
    = Some (errorString
              "error creating pem folder: mkdir /root/.jfrog/security: permission denied") /\
  fs (Exec no_security_directory tt with_cert empty_world).2 !! "/root/.jfrog"
    = Some (Directory 448) /\
  fs (Exec no_security_directory tt with_cert empty_world).2
    !! "/root/.jfrog/security" = None.
Proof. repeat split; vm_compute; reflexivity. Qed.

(** The directories Stat walks through on the way to the default path are
    the ones MkdirAll makes for its directory. *)
Example default_chain :
  posix_parents "/root/.jfrog/security/certs/cert.pem"
    = posix_parents (posix_Dir "/root/.jfrog/security/certs/cert.pem")
        ++ [posix_Dir "/root/.jfrog/security/certs/cert.pem"].
Proof. reflexivity. Qed.

(** A regular file on the way to the certificate: Stat fails, but not with
    not-exist, and [Exec] goes on to the upload without a certificate. *)
Example file_in_the_way :
  os.stat linux (fs blocked_world) "/root/.jfrog/security/certs/cert.pem"
    = Some ENOTDIR /\
  returned (Exec linux tt with_cert blocked_world) = None /\
  fs (Exec linux tt with_cert blocked_world).2 = fs blocked_world /\
  length (started linux tt with_cert blocked_world) = 2%nat.
Proof. repeat split; vm_compute; reflexivity. Qed.

(** ** The code refines the staged reading *)

Lemma putSleep_slept (h : Host) (w : World) :
  putSleep h w = (inr tt, slept h w).
Proof.
  unfold putSleep, slept, sleepCmd, traceLine, getShell, getSleepCommand.
  destruct (String.eqb (GOOS h) "windows"); reflexivity.
Qed.

Lemma Exec_staged (h : Host) (ctx : Context) (args : Args) (w : World) :
  Exec h ctx args w = staged h args w.
Proof.
  unfold Exec, staged, bind.
  rewrite putSleep_slept.
  destruct (String.eqb (URL args) ""); [reflexivity|].
  cbv beta iota.
  unfold ret at 1.
  unfold credentialMode, commandLine, retriesFlag, threadsFlag, insecureFlag,
    flatFlag, strconv.FormatBool, modeFlags.
  destruct (Z.eqb (Retries args) 0);
       destruct (Z.ltb 0 (Threads args));
       cbn [negb app].
  all: destruct (negb (String.eqb (Username args) "") && negb (String.eqb (Password args) ""));
    [|destruct (negb (String.eqb (APIKey args) ""));
      [|destruct (negb (String.eqb (AccessToken args) "")); [|reflexivity]]].
  all: unfold ret at 1; cbn [app].
  all: unfold provision, certRequired, pemPath, bind; cbv beta iota zeta.
  all: match goal with
       | |- match ?X with _ => _ end = _ => destruct X as [[e|[]] w2]
       end; [reflexivity|].
  all: unfold modeArgs, specFlags, positionals;
       destruct (parseBoolOrDefault false (Insecure args));
       (destruct (String.eqb (Spec args) "");
        [ destruct (String.eqb (Source args) ""); [reflexivity|];
          destruct (String.eqb (Target args) ""); [reflexivity|]
        | destruct (String.eqb (SpecVars args) "") ]).
  all: cbn [negb app]; unfold ret.
  all: unfold invoke, uploadCmd, traceLine, getShell.
  all: destruct (String.eqb (GOOS h) "windows").
  all: lazy beta iota zeta delta [trace act Cmd_Run exec.Command exec.set_Env
         exec.set_Stdout exec.set_Stderr exec.Env exec.Args
         exec.Stdout exec.Stderr ret throw].
  all: match goal with
       | |- context [run_outcome ?hh ?c] => destruct (run_outcome hh c)
       end; reflexivity.
Qed.

(** ** The certificate step, case by case *)

Lemma stat_found (h : Host) (m : gmap string Node) (name : string) (n : Node) :
  m !! name = Some n -> os.stat h m name <> Some ENOENT.
Proof.
  intros Hn. unfold os.stat.
  destruct (existsb _ _); [discriminate|].
  destruct (unsearchable h name); [discriminate|].
  rewrite Hn. discriminate.
Qed.

Lemma stat_missing (h : Host) (m : gmap string Node) (name : string) :
  os.stat h m name = Some ENOENT -> m !! name = None.
Proof.
  unfold os.stat.
  destruct (existsb _ _); [discriminate|].
  destruct (unsearchable h name); [discriminate|].
  destruct (m !! name); [discriminate|reflexivity].
Qed.

(** Stat reports not-exist exactly when nothing is at the name, no proper
    ancestor of it is a file, and the search is not denied. *)
Lemma stat_not_exist (h : Host) (m : gmap string Node) (name : string) :
  os.stat h m name = Some ENOENT <->
  m !! name = None /\
  existsb (os.is_file m) (parents h name) = false /\
  unsearchable h name = false.
Proof.
  unfold os.stat.
  destruct (existsb _ _); [split; [discriminate|intros (_ & ? & _); discriminate]|].
  destruct (unsearchable h name);
    [split; [discriminate|intros (_ & _ & ?); discriminate]|].
  destruct (m !! name).
  - split; [discriminate|intros (? & _); discriminate].
  - split; auto.
Qed.

Lemma provision_skip (h : Host) (args : Args) (w : World) :
  certRequired args = false -> provision h args w = (inr tt, w).
Proof. intros Hreq. unfold provision. rewrite Hreq. reflexivity. Qed.

(** Whatever Stat says other than not-exist, the step ends there. *)
Lemma provision_found (h : Host) (args : Args) (w : World) :
  certRequired args = true ->
  os.stat h (fs w) (pemPath h args) <> Some ENOENT ->
  provision h args w = (inr tt, probed h args w).
Proof.
  intros Hreq Hst. unfold provision, probed. rewrite Hreq.
  unfold bind, act, os.Stat. cbn [fs emit].
  destruct (os.stat h (fs w) (pemPath h args)) as [[]|];
    try reflexivity; contradiction.
Qed.

Lemma provision_missing (h : Host) (args : Args) (w : World) :
  certRequired args = true ->
  os.stat h (fs w) (pemPath h args) = Some ENOENT ->
  provision h args w =
    let path := pemPath h args in
    let made := os.mkdirAll h (Dir h path) 448 (fs w) in
    let w1 := set_fs made.1 (emit (EvMkdirAll (Dir h path) 448) (probed h args w)) in
    match made.2 with
    | Some e => (inl (CertDirError e), w1)
    | None =>
        let wrote := os.writeFile h path (PEMFileContents args) 384 made.1 in
        let w2 := set_fs wrote.1
                         (emit (EvWriteFile path (PEMFileContents args) 384) w1) in
        match wrote.2 with
        | Some e => (inl (CertWriteError e), w2)
        | None =>
            (inr tt,
             emit (EvPrintf "Successfully created pem file at %q\n" [path]) w2)
        end
    end.
Proof.
  intros Hreq Hst. unfold provision, probed. rewrite Hreq.
  unfold bind, act, os.Stat. cbn [fs emit]. rewrite Hst.
  cbn [option_map os.IsNotExist]. unfold os.MkdirAll. cbn [fs emit]. cbv zeta.
  destruct (os.mkdirAll h (Dir h (pemPath h args)) 448 (fs w)) as [m [e|]];
    cbn [fst snd]; [reflexivity|].
  unfold os.WriteFile. cbn [fs emit set_fs].
  destruct (os.writeFile h (pemPath h args) (PEMFileContents args) 384 m)
    as [m' [e|]]; reflexivity.
Qed.

(** ** What MkdirAll and WriteFile leave behind *)

Lemma ensure_dir_failed (h : Host) (perm : Z) (l : list string)
    (m : gmap string Node) (e : error) :
  fold_left (os.ensure_dir h perm) l (m, Some e) = (m, Some e).
Proof. induction l as [|d l IH]; [reflexivity|]. exact IH. Qed.

(** One step of the chain, by what it finds. *)
Lemma ensure_dir_step (h : Host) (perm : Z) (m : gmap string Node) (d : string) :
  (exists p, m !! d = Some (Directory p) /\
             os.ensure_dir h perm (m, None) d = (m, None)) \/
  (exists errno, os.ensure_dir h perm (m, None) d
                 = (m, Some (PathError "mkdir" d errno))) \/
  (m !! d = None /\
   os.ensure_dir h perm (m, None) d = (<[d := Directory perm]> m, None)).
Proof.
  unfold os.ensure_dir.
  destruct (m !! d) as [[data p|p]|].
  - right. left. eexists. reflexivity.
  - left. eexists. split; reflexivity.
  - destruct (mkdir_fault h d) as [errno|].
    + right. left. eexists. reflexivity.
    + right. right. split; reflexivity.
Qed.

(** Entries that are there stay as they are, also when the chain fails. *)
Lemma ensure_dirs_keep (h : Host) (perm : Z) (l : list string)
    (m0 m : gmap string Node) (r : option error) (k : string) (n : Node) :
  fold_left (os.ensure_dir h perm) l (m0, None) = (m, r) ->
  m0 !! k = Some n -> m !! k = Some n.
Proof.
  revert m0. induction l as [|d l IH]; intros m0 Hfold Hk.
  - cbn in Hfold. congruence.
  - cbn [fold_left] in Hfold.
    destruct (ensure_dir_step h perm m0 d)
      as [(p & _ & Hs)|[(errno & Hs)|(Hd & Hs)]]; rewrite Hs in Hfold.
    + eapply IH; eassumption.
    + rewrite ensure_dir_failed in Hfold. congruence.
    + eapply IH; [eassumption|].
      rewrite lookup_insert_ne; [assumption|]. congruence.
Qed.


(** What the chain adds is a directory of the chain, with the given mode. *)
Lemma ensure_dirs_new (h : Host) (perm : Z) (l : list string)
    (m0 m : gmap string Node) (r : option error) (k : string) (n : Node) :
  fold_left (os.ensure_dir h perm) l (m0, None) = (m, r) ->
  m0 !! k = None -> m !! k = Some n ->
  n = Directory perm /\ In k l.
Proof.
  revert m0. induction l as [|d l IH]; intros m0 Hfold Hk Hn.
  - cbn in Hfold. congruence.
  - cbn [fold_left] in Hfold.
    destruct (ensure_dir_step h perm m0 d)
      as [(p & Hd & Hs)|[(errno & Hs)|(Hd & Hs)]]; rewrite Hs in Hfold.
    + destruct (IH m0 Hfold Hk Hn) as (-> & Hin). split; [reflexivity|right; exact Hin].
    + rewrite ensure_dir_failed in Hfold. congruence.
    + destruct (decide (d = k)) as [->|Hne].
      * split; [|left; reflexivity].
        pose proof (ensure_dirs_keep h perm l _ m r k (Directory perm) Hfold
                      (lookup_insert_eq _ _ _)) as Hkeep.
        congruence.
      * destruct (IH _ Hfold) as (-> & Hin); [|exact Hn|].
        -- rewrite lookup_insert_ne; assumption.
        -- split; [reflexivity|right; exact Hin].
Qed.



(** MkdirAll keeps every entry that was there, whether it fails or not. *)
Lemma mkdirAll_keeps (h : Host) (dir : string) (perm : Z)
    (m0 m : gmap string Node) (r : option error) (k : string) (n : Node) :
  os.mkdirAll h dir perm m0 = (m, r) -> m0 !! k = Some n -> m !! k = Some n.
Proof. unfold os.mkdirAll. apply ensure_dirs_keep. Qed.

(** A name that was free and is not a directory afterwards is still free. *)
Lemma mkdirAll_free (h : Host) (dir : string) (perm : Z) (m0 m : gmap string Node)
    (r : option error) (k : string) :
  os.mkdirAll h dir perm m0 = (m, r) ->
  m0 !! k = None ->
  (forall p, m !! k <> Some (Directory p)) ->
  m !! k = None.
Proof.
  unfold os.mkdirAll. intros Hmk Hk Hnd.
  destruct (m !! k) as [n|] eqn:Hn; [|reflexivity].
  destruct (ensure_dirs_new h perm _ m0 m r k n Hmk Hk Hn) as (-> & _).
  exfalso. eapply Hnd. reflexivity.
Qed.



(** WriteFile touches no other name. *)
Lemma writeFile_frame (h : Host) (name data : string) (perm : Z)
    (m : gmap string Node) (k : string) :
  k <> name -> (os.writeFile h name data perm m).1 !! k = m !! k.
Proof.
  intros Hne. unfold os.writeFile.
  destruct (write_fault h name) as [[errno|errno written|errno]|];
    destruct (m !! name) as [[d p|p]|]; cbn [fst];
    try reflexivity; apply lookup_insert_ne; congruence.
Qed.


(** After MkdirAll, a path that was free is written afresh, with the mode
    asked for. *)
Lemma writeFile_fresh (h : Host) (dir path data : string) (perm perm' : Z)
    (m0 m m' : gmap string Node) (r : option error) :
  os.mkdirAll h dir perm m0 = (m, r) ->
  m0 !! path = None ->
  os.writeFile h path data perm' m = (m', None) ->
  m !! path = None /\ m' = <[path := File data perm']> m.
Proof.
  intros Hmk Hfree Hwr.
  assert (Hnone : m !! path = None).
  { eapply mkdirAll_free; [eassumption|assumption|].
    intros q Hq. unfold os.writeFile in Hwr. rewrite Hq in Hwr.
    destruct (write_fault h path) as [[errno|errno written|errno]|]; discriminate. }
  split; [exact Hnone|].
  unfold os.writeFile in Hwr. rewrite Hnone in Hwr.
  destruct (write_fault h path) as [[errno|errno written|errno]|];
    try discriminate.
  injection Hwr as <-. reflexivity.
Qed.

(** ** The paths through [Exec] *)

Lemma eqb_empty_false (s : string) : s <> "" -> String.eqb s "" = false.
Proof. intros Hs. apply String.eqb_neq. exact Hs. Qed.

Lemma eqb_empty_true (s : string) : s = "" -> String.eqb s "" = true.
Proof. intros ->. reflexivity. Qed.

Lemma Exec_no_url (h : Host) (ctx : Context) (args : Args) (w : World) :
  URL args = "" -> Exec h ctx args w = (inl MissingURL, slept h w).
Proof.
  intros Hurl. rewrite Exec_staged. unfold staged.
  rewrite (eqb_empty_true _ Hurl). reflexivity.
Qed.

Lemma Exec_no_credentials (h : Host) (ctx : Context) (args : Args) (w : World) :
  URL args <> "" -> credentialMode args = None ->
  Exec h ctx args w = (inl MissingCredentials, slept h w).
Proof.
  intros Hurl Hmode. rewrite Exec_staged. unfold staged.
  rewrite (eqb_empty_false _ Hurl), Hmode. reflexivity.
Qed.

Lemma Exec_certificate_error (h : Host) (ctx : Context) (args : Args) (w w2 : World)
    (mode : CredentialMode) (e : error) :
  URL args <> "" -> credentialMode args = Some mode ->
  provision h args (slept h w) = (inl e, w2) ->
  Exec h ctx args w = (inl e, w2).
Proof.
  intros Hurl Hmode Hprov. rewrite Exec_staged. unfold staged.
  rewrite (eqb_empty_false _ Hurl), Hmode, Hprov. reflexivity.
Qed.

Lemma Exec_mode_error (h : Host) (ctx : Context) (args : Args) (w w2 : World)
    (mode : CredentialMode) (e : error) :
  URL args <> "" -> credentialMode args = Some mode ->
  provision h args (slept h w) = (inr tt, w2) ->
  modeArgs args = inl e ->
  Exec h ctx args w = (inl e, w2).
Proof.
  intros Hurl Hmode Hprov Htail. rewrite Exec_staged. unfold staged.
  rewrite (eqb_empty_false _ Hurl), Hmode, Hprov, Htail. reflexivity.
Qed.

Lemma Exec_invokes (h : Host) (ctx : Context) (args : Args) (w w2 : World)
    (mode : CredentialMode) (tail : list string) :
  URL args <> "" -> credentialMode args = Some mode ->
  provision h args (slept h w) = (inr tt, w2) ->
  modeArgs args = inr tail ->
  Exec h ctx args w = invoke h (commandLine h args (modeFlags h mode) tail) w2.
Proof.
  intros Hurl Hmode Hprov Htail. rewrite Exec_staged. unfold staged.
  rewrite (eqb_empty_false _ Hurl), Hmode, Hprov, Htail. reflexivity.
Qed.

(** ** Bookkeeping on the event log *)

Lemma events_slept (h : Host) (w : World) :
  events (slept h w) = events w ++ [traceLine (sleepCmd h); EvRun (sleepCmd h)].
Proof. unfold slept. cbn [events emit]. rewrite <- app_assoc. reflexivity. Qed.

Lemma fs_slept (h : Host) (w : World) : fs (slept h w) = fs w.
Proof. reflexivity. Qed.

Lemma spawned_app (l k : list Event) : spawned (l ++ k) = spawned l ++ spawned k.
Proof. unfold spawned. apply omap_app. Qed.

Lemma fs_calls_app (l k : list Event) : fs_calls (l ++ k) = fs_calls l ++ fs_calls k.
Proof. unfold fs_calls. apply List.filter_app. Qed.

Lemma fs_writes_app (l k : list Event) :
  fs_writes (l ++ k) = fs_writes l ++ fs_writes k.
Proof. unfold fs_writes. apply List.filter_app. Qed.

(** The new events of a run whose final log is known. *)
Lemma new_events_of (h : Host) (ctx : Context) (args : Args) (w : World)
    (evs : list Event) :
  events (Exec h ctx args w).2 = events w ++ evs ->
  new_events h ctx args w = evs.
Proof. intros Hev. unfold new_events. rewrite Hev. apply drop_app_length. Qed.

(** The certificate step only appends to the log, and starts no process. *)
Lemma provision_trace (h : Host) (args : Args) (w : World) :
  exists evs,
    events (provision h args w).2 = events w ++ evs /\
    spawned evs = [] /\
    (certRequired args = false -> evs = [] /\ fs (provision h args w).2 = fs w).
Proof.
  destruct (certRequired args) eqn:Hreq.
  - destruct (decide (os.stat h (fs w) (pemPath h args) = Some ENOENT))
      as [Hst|Hst].
    + rewrite (provision_missing h args w Hreq Hst). cbv zeta.
      destruct (os.mkdirAll _ _ _ _) as [m [e|]]; cbn [fst snd].
      * eexists. unfold probed. cbn [snd events emit set_fs].
        rewrite <- !app_assoc. split; [reflexivity|].
        split; [reflexivity|discriminate].
      * destruct (os.writeFile _ _ _ _ _) as [m' [e|]]; cbn [fst snd].
        -- eexists. unfold probed. cbn [snd events emit set_fs].
           rewrite <- !app_assoc. split; [reflexivity|].
           split; [reflexivity|discriminate].
        -- eexists. unfold probed. cbn [snd events emit set_fs].
           rewrite <- !app_assoc. split; [reflexivity|].
           split; [reflexivity|discriminate].
    + rewrite (provision_found h args w Hreq Hst).
      eexists. unfold probed. cbn [snd events emit]. rewrite <- app_assoc.
      split; [reflexivity|]. split; [reflexivity|discriminate].
  - rewrite (provision_skip h args w Hreq). exists [].
    cbn [snd]. rewrite app_nil_r. repeat split; reflexivity.
Qed.

(** The log of a whole run: the sleep, the certificate step, the upload. *)
Lemma Exec_trace (h : Host) (ctx : Context) (args : Args) (w : World) :
  exists cert up,
    events (Exec h ctx args w).2
      = events w ++ [traceLine (sleepCmd h); EvRun (sleepCmd h)] ++ cert ++ up /\
    spawned cert = [] /\
    (up = [] \/
     exists tokens, up = [traceLine (uploadCmd h tokens); EvRun (uploadCmd h tokens)]).
Proof.
  rewrite Exec_staged. unfold staged.
  destruct (String.eqb (URL args) "").
  { exists [], []. cbn [snd app]. rewrite events_slept. auto. }
  destruct (credentialMode args) as [mode|].
  2:{ exists [], []. cbn [snd app]. rewrite events_slept. auto. }
  destruct (provision_trace h args (slept h w)) as (cert & Hev & Hsp & _).
  destruct (provision h args (slept h w)) as [[e|[]] w2]; cbn [snd] in Hev.
  { exists cert, []. cbn [snd]. rewrite Hev, events_slept, app_nil_r, <- app_assoc.
    auto. }
  destruct (modeArgs args) as [e|tail].
  { exists cert, []. cbn [snd]. rewrite Hev, events_slept, app_nil_r, <- app_assoc.
    auto. }
  exists cert. eexists. unfold invoke. cbn [snd events emit].
  rewrite Hev, events_slept, <- !app_assoc. cbn [app].
  split; [reflexivity|]. split; [assumption|]. right. eexists. reflexivity.
Qed.

(** C2. For every configuration, valid or not, the first thing [Exec] does
    is the sleep: its trace line and then the run of a separate shell
    invocation whose script is the fixed 600-second (10-minute) sleep.
    Everything else the run does comes after it in the log. *)
Theorem sleep_runs_first (h : Host) (ctx : Context) (args : Args) (w : World) :
  (exists rest,
     events (Exec h ctx args w).2
       = events w ++ traceLine (sleepCmd h) :: EvRun (sleepCmd h) :: rest) /\
  head (started h ctx args w) = Some (sleepCmd h) /\
  exec.Args (sleepCmd h)
    = (if String.eqb (GOOS h) "windows"
       then ["powershell"; "-Command"; "Start-Sleep 600"]
       else ["sh"; "-c"; "sleep 600"]).
Proof.
  destruct (Exec_trace h ctx args w) as (cert & up & Hev & _ & _).
  split; [|split].
  - exists (cert ++ up). exact Hev.
  - unfold started. rewrite (new_events_of _ _ _ _ _ Hev). reflexivity.
  - reflexivity.
Qed.

(** C1, as the code has it.  With an empty URL [Exec] returns the MissingURL
    error, writes no certificate and makes no call into the file system, and
    never starts the upload tool; the one child process it does start,
    before the validation, is the preliminary sleep. *)
Theorem missing_url_fails_after_sleep (h : Host) (ctx : Context) (args : Args)
    (w : World) :
  URL args = "" ->
  returned (Exec h ctx args w) = Some MissingURL /\
  new_events h ctx args w = [traceLine (sleepCmd h); EvRun (sleepCmd h)] /\
  started h ctx args w = [sleepCmd h] /\
  fs_calls (new_events h ctx args w) = [] /\
  fs (Exec h ctx args w).2 = fs w.
Proof.
  intros Hurl.
  assert (Hnew : new_events h ctx args w
                 = [traceLine (sleepCmd h); EvRun (sleepCmd h)]).
  { apply new_events_of. rewrite (Exec_no_url h ctx args w Hurl).
    apply events_slept. }
  unfold started. rewrite Hnew, (Exec_no_url h ctx args w Hurl).
  repeat split; reflexivity.
Qed.

Lemma missing_url_fails_after_sleep_witness :
  returned (Exec linux tt no_args empty_world) = Some MissingURL /\
  new_events linux tt no_args empty_world
    = [traceLine (sleepCmd linux); EvRun (sleepCmd linux)] /\
  started linux tt no_args empty_world = [sleepCmd linux] /\
  fs_calls (new_events linux tt no_args empty_world) = [] /\
  fs (Exec linux tt no_args empty_world).2 = fs empty_world.
Proof.
  apply (missing_url_fails_after_sleep linux tt no_args empty_world).
  reflexivity.
Defined.

(** C1, as stated, fails: on a Linux host, with every field empty, the run
    that ends in MissingURL has started a child process. *)
Lemma missing_url_spawns_the_sleep :
  URL no_args = "" /\
  ~ (returned (Exec linux tt no_args empty_world) = Some MissingURL /\
     started linux tt no_args empty_world = [] /\
     fs_writes (new_events linux tt no_args empty_world) = []).
Proof.
  split; [reflexivity|].
  intros (_ & Hnone & _). vm_compute in Hnone. discriminate Hnone.
Qed.

(** The upload invocation is never the sleep invocation. *)
Lemma uploadCmd_not_sleepCmd (h : Host) (tokens : list string) :
  uploadCmd h tokens <> sleepCmd h.
Proof.
  intros Heq. apply (f_equal exec.Env) in Heq. cbn in Heq.
  apply (f_equal (@length string)) in Heq.
  rewrite length_app in Heq. cbn in Heq. lia.
Qed.

Lemma staged_run_outcome (h : Host) (f : exec.Cmd -> option error) (args : Args)
    (w : World) :
  (forall c, c <> sleepCmd h -> f c = run_outcome h c) ->
  staged (with_run_outcome h f) args w = staged h args w.
Proof.
  intros Hf. unfold staged.
  change (slept (with_run_outcome h f) w) with (slept h w).
  change (provision (with_run_outcome h f) args) with (provision h args).
  destruct (String.eqb (URL args) ""); [reflexivity|].
  destruct (credentialMode args) as [mode|]; [|reflexivity].
  destruct (provision h args (slept h w)) as [[e|[]] w2]; [reflexivity|].
  destruct (modeArgs args) as [e|tail]; [reflexivity|].
  change (modeFlags (with_run_outcome h f) mode) with (modeFlags h mode).
  change (commandLine (with_run_outcome h f) args) with (commandLine h args).
  unfold invoke.
  change (uploadCmd (with_run_outcome h f)) with (uploadCmd h).
  change (run_outcome (with_run_outcome h f)) with f.
  rewrite Hf; [reflexivity|]. apply uploadCmd_not_sleepCmd.
Qed.

(** C10. What [Exec] returns and does is independent of how the sleep
    invocation ends: replacing the outcome of the sleep command by any
    other, failure included, changes neither the result nor the final
    world, so a failing sleep is never returned and skips nothing. *)
Theorem sleep_outcome_ignored (h : Host) (f : exec.Cmd -> option error)
    (ctx : Context) (args : Args) (w : World) :
  (forall c, c <> sleepCmd h -> f c = run_outcome h c) ->
  Exec (with_run_outcome h f) ctx args w = Exec h ctx args w.
Proof.
  intros Hf. rewrite !Exec_staged. apply staged_run_outcome. exact Hf.
Qed.

(** The sleep fails, and the run is the one of the host where it succeeds:
    the upload is made and [Exec] returns nil. *)
Lemma sleep_outcome_ignored_witness :
  failing_sleep (sleepCmd linux) = Some (ExecError "exit status 1") /\
  Exec (with_run_outcome linux failing_sleep) tt scenario empty_world
    = Exec linux tt scenario empty_world /\
  returned (Exec (with_run_outcome linux failing_sleep) tt scenario empty_world)
    = None.
Proof.
  split; [reflexivity|].
  assert (Hsame : Exec (with_run_outcome linux failing_sleep) tt scenario empty_world
                  = Exec linux tt scenario empty_world).
  { apply (sleep_outcome_ignored linux failing_sleep tt scenario empty_world).
    intros c Hc. unfold failing_sleep.
    destruct (decide (c = sleepCmd linux)) as [Heq|_]; [contradiction|reflexivity]. }
  split; [exact Hsame|]. rewrite Hsame. reflexivity.
Defined.

Lemma staged_secrets (h : Host) (a b : Args) (w : World) :
  only_secrets_differ a b ->
  credentialMode a = credentialMode b ->
  staged h a w = staged h b w.
Proof.
  intros (HL & HU & HS & HT & HR & HF & HSp & HTh & HSv & HI & HPc & HPp) Hmode.
  unfold staged, provision, certRequired, pemPath, modeArgs, commandLine,
    retriesFlag, flatFlag, threadsFlag, insecureFlag, specFlags, positionals.
  rewrite Hmode, HU, HS, HT, HR, HF, HSp, HTh, HSv, HI, HPc, HPp.
  reflexivity.
Qed.

(** C3, as the code has it.  The command string depends on the four secrets
    only through the credential mode they select: the credential flags
    carry references to environment variables, so two configurations that
    differ only in secret values and select the same mode (or both none)
    run identically, with identical command strings. *)
Theorem secrets_only_select_the_mode (h : Host) (ctx : Context) (a b : Args)
    (w : World) :
  only_secrets_differ a b ->
  credentialMode a = credentialMode b ->
  Exec h ctx a w = Exec h ctx b w /\
  scripts h ctx a w = scripts h ctx b w.
Proof.
  intros Hsame Hmode.
  assert (Heq : Exec h ctx a w = Exec h ctx b w).
  { rewrite !Exec_staged. apply staged_secrets; assumption. }
  split; [exact Heq|].
  unfold scripts, started, new_events. rewrite Heq. reflexivity.
Qed.

Lemma secrets_only_select_the_mode_witness :
  Exec linux tt scenario empty_world = Exec linux tt keyed_with_user empty_world /\
  scripts linux tt scenario empty_world = scripts linux tt keyed_with_user empty_world.
Proof.
  apply (secrets_only_select_the_mode linux tt scenario keyed_with_user empty_world).
  - unfold only_secrets_differ. cbn. repeat split; reflexivity.
  - reflexivity.
Defined.

(** C3, as stated, fails: these two configurations differ only in the user
    name, a secret, and yet their command strings differ, because the empty
    user name moves the selection from user/password to the API key. *)
Lemma secret_emptiness_shows :
  only_secrets_differ keyed keyed_with_user /\
  scripts linux tt keyed empty_world <> scripts linux tt keyed_with_user empty_world.
Proof.
  split.
  - unfold only_secrets_differ. cbn. repeat split; reflexivity.
  - intros Heq. vm_compute in Heq. discriminate Heq.
Qed.

Lemma returned_None {A : Type} (r : (error + A) * World) :
  returned r = None -> exists a w, r = (inr a, w).
Proof.
  destruct r as [[e|a] w]; unfold returned; cbn; [discriminate|].
  intros _. exists a, w. reflexivity.
Qed.

Lemma returned_invoke (h : Host) (tokens : list string) (w : World) :
  returned (invoke h tokens w) = run_outcome h (uploadCmd h tokens).
Proof.
  unfold returned, invoke. cbn [fst].
  destruct (run_outcome h (uploadCmd h tokens)); reflexivity.
Qed.

(** When nothing fails before it, the upload is run on the command line. *)
Lemma Exec_uploads (h : Host) (ctx : Context) (args : Args) (w : World)
    (mode : CredentialMode) (tail : list string) :
  URL args <> "" -> credentialMode args = Some mode ->
  returned (provision h args (slept h w)) = None ->
  modeArgs args = inr tail ->
  uploads h ctx args w (commandLine h args (modeFlags h mode) tail) /\
  fs (Exec h ctx args w).2 = fs (provision h args (slept h w)).2 /\
  fs_calls (new_events h ctx args w)
    = fs_calls (drop (length (events (slept h w)))
                     (events (provision h args (slept h w)).2)).
Proof.
  intros Hurl Hmode Hprov Htail.
  destruct (provision_trace h args (slept h w)) as (cert & Hev & Hsp & _).
  apply returned_None in Hprov. destruct Hprov as ([] & w2 & Hprov).
  rewrite Hprov in Hev |- *. cbn [snd] in Hev |- *.
  set (tokens := commandLine h args (modeFlags h mode) tail).
  assert (Hnew : new_events h ctx args w
                 = [traceLine (sleepCmd h); EvRun (sleepCmd h)] ++ cert ++
                   [traceLine (uploadCmd h tokens); EvRun (uploadCmd h tokens)]).
  { apply new_events_of.
    rewrite (Exec_invokes h ctx args w w2 mode tail Hurl Hmode Hprov Htail).
    unfold invoke. cbn [snd events emit].
    rewrite Hev, events_slept, <- !app_assoc. reflexivity. }
  unfold uploads, started. rewrite Hnew, Hev, drop_app_length.
  rewrite (Exec_invokes h ctx args w w2 mode tail Hurl Hmode Hprov Htail).
  fold tokens. rewrite returned_invoke.
  rewrite !spawned_app, Hsp, !fs_calls_app.
  cbn [spawned omap app fs_calls List.filter invoke snd fs emit traceLine].
  rewrite app_nil_r.
  repeat split; reflexivity.
Qed.

(** When the mode is invalid, [Exec] stops after the certificate step. *)
Lemma Exec_stops_at_mode (h : Host) (ctx : Context) (args : Args) (w : World)
    (mode : CredentialMode) (e : error) :
  URL args <> "" -> credentialMode args = Some mode ->
  returned (provision h args (slept h w)) = None ->
  modeArgs args = inl e ->
  returned (Exec h ctx args w) = Some e /\
  started h ctx args w = [sleepCmd h] /\
  fs (Exec h ctx args w).2 = fs (provision h args (slept h w)).2 /\
  fs_calls (new_events h ctx args w)
    = fs_calls (drop (length (events (slept h w)))
                     (events (provision h args (slept h w)).2)).
Proof.
  intros Hurl Hmode Hprov Htail.
  destruct (provision_trace h args (slept h w)) as (cert & Hev & Hsp & _).
  apply returned_None in Hprov. destruct Hprov as ([] & w2 & Hprov).
  rewrite Hprov in Hev |- *. cbn [snd] in Hev |- *.
  assert (Hnew : new_events h ctx args w
                 = [traceLine (sleepCmd h); EvRun (sleepCmd h)] ++ cert).
  { apply new_events_of.
    rewrite (Exec_mode_error h ctx args w w2 mode e Hurl Hmode Hprov Htail).
    cbn [snd]. rewrite Hev, events_slept, <- !app_assoc. reflexivity. }
  unfold started. rewrite Hnew, Hev, drop_app_length.
  rewrite (Exec_mode_error h ctx args w w2 mode e Hurl Hmode Hprov Htail).
  rewrite !spawned_app, Hsp, !fs_calls_app.
  repeat split; reflexivity.
Qed.

(** When the certificate step fails, [Exec] stops there with its error. *)
Lemma Exec_stops_at_certificate (h : Host) (ctx : Context) (args : Args)
    (w : World) (mode : CredentialMode) (e : error) :
  URL args <> "" -> credentialMode args = Some mode ->
  returned (provision h args (slept h w)) = Some e ->
  returned (Exec h ctx args w) = Some e /\
  started h ctx args w = [sleepCmd h] /\
  fs (Exec h ctx args w).2 = fs (provision h args (slept h w)).2.
Proof.
  intros Hurl Hmode Hprov.
  destruct (provision_trace h args (slept h w)) as (cert & Hev & Hsp & _).
  destruct (provision h args (slept h w)) as [[e'|[]] w2] eqn:Hp;
    unfold returned in Hprov; cbn in Hprov; [|discriminate].
  injection Hprov as ->. cbn [snd] in Hev |- *.
  assert (Hnew : new_events h ctx args w
                 = [traceLine (sleepCmd h); EvRun (sleepCmd h)] ++ cert).
  { apply new_events_of.
    rewrite (Exec_certificate_error h ctx args w w2 mode e Hurl Hmode Hp).
    cbn [snd]. rewrite Hev, events_slept, <- !app_assoc. reflexivity. }
  unfold started. rewrite Hnew.
  rewrite (Exec_certificate_error h ctx args w w2 mode e Hurl Hmode Hp).
  rewrite !spawned_app, Hsp.
  repeat split; reflexivity.
Qed.

Lemma started_after_credentials (h : Host) (ctx : Context) (args : Args)
    (w : World) (mode : CredentialMode) :
  URL args <> "" -> credentialMode args = Some mode ->
  selects h ctx args w (modeFlags h mode).
Proof.
  intros Hurl Hmode. split.
  - intros tail Htail Hprov.
    apply (Exec_uploads h ctx args w mode tail Hurl Hmode Hprov Htail).
  - intros c Hin.
    destruct (returned (provision h args (slept h w))) as [e|] eqn:Hprov.
    + destruct (Exec_stops_at_certificate h ctx args w mode e Hurl Hmode Hprov)
        as (_ & Hst & _).
      rewrite Hst in Hin. destruct Hin as [<-|[]]. left. reflexivity.
    + destruct (modeArgs args) as [e|tail] eqn:Htail.
      * destruct (Exec_stops_at_mode h ctx args w mode e Hurl Hmode Hprov Htail)
          as (_ & Hst & _).
        rewrite Hst in Hin. destruct Hin as [<-|[]]. left. reflexivity.
      * destruct (Exec_uploads h ctx args w mode tail Hurl Hmode Hprov Htail)
          as ((Hst & _) & _).
        rewrite Hst in Hin. destruct Hin as [<-|[<-|[]]].
        -- left. reflexivity.
        -- right. exists tail. reflexivity.
Qed.

(** C4. Credentials are selected in the fixed precedence (user name and
    password) > API key > access token, and exactly the flags of the
    selected mode are emitted, as references to environment variables; with
    no mode resolvable [Exec] fails with MissingCredentials, having started
    nothing but the sleep. *)
Theorem credential_precedence (h : Host) (ctx : Context) (args : Args) (w : World) :
  URL args <> "" ->
  (Username args <> "" -> Password args <> "" ->
   selects h ctx args w
     ["--user " +:+ getEnvPrefix h +:+ "PLUGIN_USERNAME";
      "--password " +:+ getEnvPrefix h +:+ "PLUGIN_PASSWORD"]) /\
  (Username args = "" \/ Password args = "" -> APIKey args <> "" ->
   selects h ctx args w ["--apikey " +:+ getEnvPrefix h +:+ "PLUGIN_API_KEY"]) /\
  (Username args = "" \/ Password args = "" -> APIKey args = "" ->
   AccessToken args <> "" ->
   selects h ctx args w
     ["--access-token " +:+ getEnvPrefix h +:+ "PLUGIN_ACCESS_TOKEN"]) /\
  (Username args = "" \/ Password args = "" -> APIKey args = "" ->
   AccessToken args = "" ->
   returned (Exec h ctx args w) = Some MissingCredentials /\
   started h ctx args w = [sleepCmd h]).
Proof.
  intros Hurl.
  assert (Hboth : Username args = "" \/ Password args = "" ->
                  negb (String.eqb (Username args) "")
                  && negb (String.eqb (Password args) "") = false).
  { intros [Hu|Hp].
    - rewrite (eqb_empty_true _ Hu). reflexivity.
    - rewrite (eqb_empty_true _ Hp). apply andb_false_r. }
  split; [|split; [|split]].
  - intros Hu Hp.
    apply (started_after_credentials h ctx args w UserPassword Hurl).
    unfold credentialMode.
    rewrite (eqb_empty_false _ Hu), (eqb_empty_false _ Hp). reflexivity.
  - intros Hnot Hk.
    apply (started_after_credentials h ctx args w ApiKey Hurl).
    unfold credentialMode.
    rewrite (Hboth Hnot), (eqb_empty_false _ Hk). reflexivity.
  - intros Hnot Hk Ht.
    apply (started_after_credentials h ctx args w Token Hurl).
    unfold credentialMode.
    rewrite (Hboth Hnot), (eqb_empty_true _ Hk), (eqb_empty_false _ Ht).
    reflexivity.
  - intros Hnot Hk Ht.
    assert (Hmode : credentialMode args = None).
    { unfold credentialMode.
      rewrite (Hboth Hnot), (eqb_empty_true _ Hk), (eqb_empty_true _ Ht).
      reflexivity. }
    assert (Hnew : new_events h ctx args w
                   = [traceLine (sleepCmd h); EvRun (sleepCmd h)]).
    { apply new_events_of.
      rewrite (Exec_no_credentials h ctx args w Hurl Hmode). apply events_slept. }
    unfold started. rewrite Hnew, (Exec_no_credentials h ctx args w Hurl Hmode).
    split; reflexivity.
Qed.

Lemma credential_precedence_witness :
  uploads linux tt keyed_with_user empty_world
    ["jfrog"; "rt"; "u"; "--url https://example.com";
     "--user $PLUGIN_USERNAME"; "--password $PLUGIN_PASSWORD"; "--flat=false";
     dquote +:+ "build/app.zip" +:+ dquote; "libs/app.zip"].
Proof.
  destruct (credential_precedence linux tt keyed_with_user empty_world)
    as (Huser & _); [discriminate|].
  destruct Huser as [Hup _]; [discriminate|discriminate|].
  exact (Hup [dquote +:+ "build/app.zip" +:+ dquote; "libs/app.zip"]
             eq_refl eq_refl).
Defined.

Lemma staged_paths (h : Host) (args : Args) (w : World) (s t : string) :
  String.eqb (Spec args) "" = false ->
  staged h (with_paths args s t) w = staged h args w.
Proof.
  intros Hspec.
  unfold staged, provision, certRequired, pemPath, modeArgs, commandLine,
    retriesFlag, flatFlag, threadsFlag, insecureFlag, specFlags, credentialMode.
  cbn [with_paths Level Username Password APIKey AccessToken URL Source Target
       Retries Flat Spec Threads SpecVars Insecure PEMFileContents PEMFilePath].
  rewrite Hspec. reflexivity.
Qed.

(** C5. Spec-file mode and source/target mode exclude each other.  Once the
    URL and the credentials are accepted and the certificate step has not
    failed: with a spec, the command line ends in the spec flag (and the
    single-quoted spec-vars flag when there are any), and source and target
    play no part, whatever they are; without a spec, an empty source is the
    MissingSource error, and an empty target after a source is the
    MissingTarget error, the upload tool never being started. *)
Theorem spec_excludes_source_target (h : Host) (ctx : Context) (args : Args)
    (w : World) (mode : CredentialMode) :
  URL args <> "" ->
  credentialMode args = Some mode ->
  returned (provision h args (slept h w)) = None ->
  (Spec args <> "" ->
   uploads h ctx args w
     (commandLine h args (modeFlags h mode)
        (("--spec=" +:+ Spec args)
           :: (if String.eqb (SpecVars args) "" then []
               else ["--spec-vars='" +:+ SpecVars args +:+ "'"]))) /\
   forall s t, Exec h ctx (with_paths args s t) w = Exec h ctx args w) /\
  (Spec args = "" -> Source args = "" ->
   returned (Exec h ctx args w) = Some MissingSource /\
   started h ctx args w = [sleepCmd h]) /\
  (Spec args = "" -> Source args <> "" -> Target args = "" ->
   returned (Exec h ctx args w) = Some MissingTarget /\
   started h ctx args w = [sleepCmd h]).
Proof.
  intros Hurl Hmode Hprov. split; [|split].
  - intros Hspec. split.
    + apply (Exec_uploads h ctx args w mode _ Hurl Hmode Hprov).
      unfold modeArgs. rewrite (eqb_empty_false _ Hspec). reflexivity.
    + intros s t. rewrite !Exec_staged.
      apply staged_paths. apply eqb_empty_false. exact Hspec.
  - intros Hspec Hsrc.
    destruct (Exec_stops_at_mode h ctx args w mode MissingSource Hurl Hmode Hprov)
      as (Hret & Hst & _); [|split; assumption].
    unfold modeArgs.
    rewrite (eqb_empty_true _ Hspec), (eqb_empty_true _ Hsrc). reflexivity.
  - intros Hspec Hsrc Htgt.
    destruct (Exec_stops_at_mode h ctx args w mode MissingTarget Hurl Hmode Hprov)
      as (Hret & Hst & _); [|split; assumption].
    unfold modeArgs.
    rewrite (eqb_empty_true _ Hspec), (eqb_empty_false _ Hsrc),
      (eqb_empty_true _ Htgt). reflexivity.
Qed.

Lemma spec_excludes_source_target_witness :
  uploads linux tt with_spec empty_world
    ["jfrog"; "rt"; "u"; "--url https://example.com";
     "--apikey $PLUGIN_API_KEY"; "--flat=true";
     "--spec=upload.json"; "--spec-vars='a=1;b=2'"] /\
  Exec linux tt (with_paths with_spec "" "") empty_world
    = Exec linux tt with_spec empty_world.
Proof.
  destruct (spec_excludes_source_target linux tt with_spec empty_world ApiKey)
    as (Hspec & _); [discriminate|reflexivity|reflexivity|].
  destruct Hspec as [Hup Hind]; [discriminate|].
  split; [exact Hup|exact (Hind "" "")].
Defined.

(** C8. The command line is built in one fixed order: the binary, the
    subcommand tokens, the URL flag, the retries flag with the count in
    decimal when the count is not zero, the credential flags, the flat flag
    (always, false when the value does not parse), the threads flag with
    the count in decimal when the count is positive, the insecure flag when
    set, and last the spec flags or the source between two double-quote
    characters (character 34) followed by the target; joined by single
    spaces it is the script handed to the shell. *)
Theorem command_line_order (h : Host) (ctx : Context) (args : Args) (w : World)
    (mode : CredentialMode) (tail : list string) :
  URL args <> "" ->
  credentialMode args = Some mode ->
  returned (provision h args (slept h w)) = None ->
  modeArgs args = inr tail ->
  let tokens :=
    [getJfrogBin h; "rt"; "u"; "--url " +:+ URL args]
      ++ (if Z.eqb (Retries args) 0 then []
          else ["--retries=" +:+ NilZero.string_of_int (Z.to_int (Retries args))])
      ++ match mode with
         | UserPassword => ["--user " +:+ getEnvPrefix h +:+ "PLUGIN_USERNAME";
                            "--password " +:+ getEnvPrefix h +:+ "PLUGIN_PASSWORD"]
         | ApiKey => ["--apikey " +:+ getEnvPrefix h +:+ "PLUGIN_API_KEY"]
         | Token => ["--access-token " +:+ getEnvPrefix h +:+ "PLUGIN_ACCESS_TOKEN"]
         end
      ++ ["--flat=" +:+ (if parseBoolOrDefault false (Flat args)
                         then "true" else "false")]
      ++ (if Z.ltb 0 (Threads args)
          then ["--threads=" +:+ NilZero.string_of_int (Z.to_int (Threads args))]
          else [])
      ++ (if parseBoolOrDefault false (Insecure args)
          then ["--insecure-tls"] else [])
      ++ tail in
  uploads h ctx args w tokens /\
  exec.Args (uploadCmd h tokens)
    = [(getShell h).1; (getShell h).2; String.concat " " tokens] /\
  tail = (if String.eqb (Spec args) ""
          then [String "034" (Source args +:+ String "034" ""); Target args]
          else ("--spec=" +:+ Spec args)
                 :: (if String.eqb (SpecVars args) "" then []
                     else ["--spec-vars='" +:+ SpecVars args +:+ "'"])).
Proof.
  intros Hurl Hmode Hprov Htail tokens. split; [|split].
  - pose proof (Exec_uploads h ctx args w mode tail Hurl Hmode Hprov Htail)
      as (Hup & _).
    destruct mode; exact Hup.
  - unfold uploadCmd, getShell. cbn [exec.Args].
    destruct (String.eqb (GOOS h) "windows"); reflexivity.
  - unfold modeArgs in Htail.
    destruct (String.eqb (Spec args) ""); cbn [negb] in Htail.
    + destruct (String.eqb (Source args) ""); [discriminate|].
      destruct (String.eqb (Target args) ""); [discriminate|].
      injection Htail as <-. reflexivity.
    + injection Htail as <-. reflexivity.
Qed.

(** The end-to-end scenario (user name and password, source and target),
    and the same with every optional flag set. *)
Lemma command_line_order_witness :
  uploads linux tt scenario empty_world
    ["jfrog"; "rt"; "u"; "--url https://example.com";
     "--user $PLUGIN_USERNAME"; "--password $PLUGIN_PASSWORD"; "--flat=false";
     String "034" ("build/app.zip" +:+ String "034" ""); "libs/app.zip"] /\
  map exec.Args (started linux tt scenario empty_world)
    = [["sh"; "-c"; "sleep 600"];
       ["sh"; "-c";
        "jfrog rt u --url https://example.com --user $PLUGIN_USERNAME "
          +:+ "--password $PLUGIN_PASSWORD --flat=false "
          +:+ String "034" ("build/app.zip" +:+ String "034" " libs/app.zip")]] /\
  map exec.Args (started linux tt tuned empty_world)
    = [["sh"; "-c"; "sleep 600"];
       ["sh"; "-c";
        "jfrog rt u --url https://example.com --retries=3 "
          +:+ "--user $PLUGIN_USERNAME --password $PLUGIN_PASSWORD "
          +:+ "--flat=true --threads=12 --insecure-tls "
          +:+ String "034" ("build/app.zip" +:+ String "034" " libs/app.zip")]].
Proof.
  destruct (command_line_order linux tt scenario empty_world UserPassword
              [String "034" ("build/app.zip" +:+ String "034" ""); "libs/app.zip"])
    as (Hup & Hargs & _); [discriminate|reflexivity|reflexivity|reflexivity|].
  destruct (command_line_order linux tt tuned empty_world UserPassword
              [String "034" ("build/app.zip" +:+ String "034" ""); "libs/app.zip"])
    as (Hup' & Hargs' & _); [discriminate|reflexivity|reflexivity|reflexivity|].
  split; [exact Hup|].
  destruct Hup as [Hst _]. destruct Hup' as [Hst' _].
  unfold started in Hst, Hst' |- *. rewrite Hst, Hst'.
  cbn [map]. rewrite Hargs, Hargs'. split; reflexivity.
Defined.

Lemma provision_events_of (h : Host) (args : Args) (w : World) (evs : list Event) :
  events (provision h args w).2 = events w ++ evs ->
  provision_events h args w = evs.
Proof. intros Hev. unfold provision_events. rewrite Hev. apply drop_app_length. Qed.

(** Past the credentials, a run is the sleep, the certificate step and, at
    most, the upload; only the certificate step touches the file system. *)
Lemma Exec_after_credentials (h : Host) (ctx : Context) (args : Args) (w : World)
    (mode : CredentialMode) :
  URL args <> "" -> credentialMode args = Some mode ->
  exists up,
    new_events h ctx args w
      = [traceLine (sleepCmd h); EvRun (sleepCmd h)]
          ++ provision_events h args (slept h w) ++ up /\
    fs_calls up = [] /\ fs_writes up = [] /\
    fs (Exec h ctx args w).2 = fs (provision h args (slept h w)).2.
Proof.
  intros Hurl Hmode.
  destruct (provision_trace h args (slept h w)) as (cert & Hev & _ & _).
  rewrite (provision_events_of _ _ _ _ Hev).
  destruct (provision h args (slept h w)) as [[e|[]] w2] eqn:Hp; cbn [snd] in *.
  - exists []. rewrite (Exec_certificate_error h ctx args w w2 mode e Hurl Hmode Hp).
    split; [|repeat split; reflexivity].
    apply new_events_of.
    rewrite (Exec_certificate_error h ctx args w w2 mode e Hurl Hmode Hp).
    cbn [snd]. rewrite Hev, events_slept, app_nil_r, <- !app_assoc. reflexivity.
  - destruct (modeArgs args) as [e|tail] eqn:Htail.
    + exists []. rewrite (Exec_mode_error h ctx args w w2 mode e Hurl Hmode Hp Htail).
      split; [|repeat split; reflexivity].
      apply new_events_of.
      rewrite (Exec_mode_error h ctx args w w2 mode e Hurl Hmode Hp Htail).
      cbn [snd]. rewrite Hev, events_slept, app_nil_r, <- !app_assoc. reflexivity.
    + exists [traceLine (uploadCmd h (commandLine h args (modeFlags h mode) tail));
              EvRun (uploadCmd h (commandLine h args (modeFlags h mode) tail))].
      rewrite (Exec_invokes h ctx args w w2 mode tail Hurl Hmode Hp Htail).
      split; [|repeat split; reflexivity].
      apply new_events_of.
      rewrite (Exec_invokes h ctx args w w2 mode tail Hurl Hmode Hp Htail).
      unfold invoke. cbn [snd events emit].
      rewrite Hev, events_slept, <- !app_assoc. reflexivity.
Qed.

Lemma Exec_continues (h : Host) (ctx : Context) (args : Args) (w : World)
    (mode : CredentialMode) :
  URL args <> "" -> credentialMode args = Some mode ->
  returned (provision h args (slept h w)) = None ->
  returned (Exec h ctx args w) = remaining_outcome h args mode.
Proof.
  intros Hurl Hmode Hprov. unfold remaining_outcome.
  destruct (modeArgs args) as [e|tail] eqn:Htail.
  - apply (Exec_stops_at_mode h ctx args w mode e Hurl Hmode Hprov Htail).
  - apply (Exec_uploads h ctx args w mode tail Hurl Hmode Hprov Htail).
Qed.

(** Whatever Stat says other than not-exist, nothing is made or written,
    and the step reports no error. *)
Lemma provision_found_effect (h : Host) (args : Args) (w : World) :
  certRequired args = true ->
  os.stat h (fs w) (pemPath h args) <> Some ENOENT ->
  returned (provision h args w) = None /\
  provision_events h args w
    = [EvPrintf "Creating pem file at %q\n" [pemPath h args];
       EvStat (pemPath h args)] /\
  fs (provision h args w).2 = fs w.
Proof.
  intros Hreq Hst. unfold provision_events.
  rewrite (provision_found h args w Hreq Hst).
  unfold probed. cbn [snd events emit fs].
  rewrite <- app_assoc, drop_app_length. repeat split; reflexivity.
Qed.

Lemma provision_exists_effect (h : Host) (args : Args) (w : World) (n : Node) :
  certRequired args = true ->
  fs w !! pemPath h args = Some n ->
  returned (provision h args w) = None /\
  provision_events h args w
    = [EvPrintf "Creating pem file at %q\n" [pemPath h args];
       EvStat (pemPath h args)] /\
  fs (provision h args w).2 = fs w.
Proof.
  intros Hreq Hn. apply provision_found_effect; [exact Hreq|].
  eapply stat_found. exact Hn.
Qed.

Lemma provision_mkdir_fails (h : Host) (args : Args) (w : World)
    (m : gmap string Node) (e : error) :
  certRequired args = true ->
  os.stat h (fs w) (pemPath h args) = Some ENOENT ->
  os.mkdirAll h (Dir h (pemPath h args)) 448 (fs w) = (m, Some e) ->
  returned (provision h args w) = Some (CertDirError e) /\
  provision_events h args w
    = [EvPrintf "Creating pem file at %q\n" [pemPath h args];
       EvStat (pemPath h args);
       EvMkdirAll (Dir h (pemPath h args)) 448] /\
  fs (provision h args w).2 = m.
Proof.
  intros Hreq Hst Hmk. unfold provision_events.
  rewrite (provision_missing h args w Hreq Hst). cbv zeta. rewrite Hmk.
  unfold probed. cbn [fst snd events emit fs set_fs].
  rewrite <- !app_assoc, drop_app_length. repeat split; reflexivity.
Qed.

Lemma provision_write_fails (h : Host) (args : Args) (w : World)
    (m m' : gmap string Node) (e : error) :
  certRequired args = true ->
  os.stat h (fs w) (pemPath h args) = Some ENOENT ->
  os.mkdirAll h (Dir h (pemPath h args)) 448 (fs w) = (m, None) ->
  os.writeFile h (pemPath h args) (PEMFileContents args) 384 m = (m', Some e) ->
  returned (provision h args w) = Some (CertWriteError e) /\
  provision_events h args w
    = [EvPrintf "Creating pem file at %q\n" [pemPath h args];
       EvStat (pemPath h args);
       EvMkdirAll (Dir h (pemPath h args)) 448;
       EvWriteFile (pemPath h args) (PEMFileContents args) 384] /\
  fs (provision h args w).2 = m'.
Proof.
  intros Hreq Hst Hmk Hwr. unfold provision_events.
  rewrite (provision_missing h args w Hreq Hst). cbv zeta. rewrite Hmk.
  cbn [fst snd]. rewrite Hwr.
  unfold probed. cbn [fst snd events emit fs set_fs].
  rewrite <- !app_assoc, drop_app_length. repeat split; reflexivity.
Qed.

Lemma provision_writes (h : Host) (args : Args) (w : World)
    (m m' : gmap string Node) :
  certRequired args = true ->
  os.stat h (fs w) (pemPath h args) = Some ENOENT ->
  os.mkdirAll h (Dir h (pemPath h args)) 448 (fs w) = (m, None) ->
  os.writeFile h (pemPath h args) (PEMFileContents args) 384 m = (m', None) ->
  returned (provision h args w) = None /\
  provision_events h args w
    = [EvPrintf "Creating pem file at %q\n" [pemPath h args];
       EvStat (pemPath h args);
       EvMkdirAll (Dir h (pemPath h args)) 448;
       EvWriteFile (pemPath h args) (PEMFileContents args) 384;
       EvPrintf "Successfully created pem file at %q\n" [pemPath h args]] /\
  fs (provision h args w).2 = m'.
Proof.
  intros Hreq Hst Hmk Hwr. unfold provision_events.
  rewrite (provision_missing h args w Hreq Hst). cbv zeta. rewrite Hmk.
  cbn [fst snd]. rewrite Hwr.
  unfold probed. cbn [fst snd events emit fs set_fs].
  rewrite <- !app_assoc, drop_app_length. repeat split; reflexivity.
Qed.

(** The file-system writes of a run are those of its certificate step. *)
Lemma Exec_fs_writes (h : Host) (ctx : Context) (args : Args) (w : World)
    (mode : CredentialMode) :
  URL args <> "" -> credentialMode args = Some mode ->
  fs_writes (new_events h ctx args w)
    = fs_writes (provision_events h args (slept h w)) /\
  fs_calls (new_events h ctx args w)
    = fs_calls (provision_events h args (slept h w)) /\
  fs (Exec h ctx args w).2 = fs (provision h args (slept h w)).2.
Proof.
  intros Hurl Hmode.
  destruct (Exec_after_credentials h ctx args w mode Hurl Hmode)
    as (up & Hnew & Hcalls & Hwrites & Hfs).
  rewrite Hnew, !fs_writes_app, !fs_calls_app, Hcalls, Hwrites, !app_nil_r.
  split; [reflexivity|]. split; [reflexivity|exact Hfs].
Qed.

Lemma missing_url_effects (h : Host) (ctx : Context) (args : Args) (w : World) :
  URL args = "" ->
  fs (Exec h ctx args w).2 = fs w /\
  new_events h ctx args w = [traceLine (sleepCmd h); EvRun (sleepCmd h)].
Proof.
  intros Hurl. split.
  - rewrite (Exec_no_url h ctx args w Hurl). reflexivity.
  - apply new_events_of. rewrite (Exec_no_url h ctx args w Hurl).
    apply events_slept.
Qed.

(** A certificate step that is told by Stat that nothing is at the path,
    and does not fail, has made the directories and written the file. *)
Lemma certificate_written (h : Host) (args : Args) (w : World) :
  certRequired args = true ->
  os.stat h (fs w) (pemPath h args) = Some ENOENT ->
  returned (provision h args w) = None ->
  fs_writes (provision_events h args w)
    = [EvMkdirAll (Dir h (pemPath h args)) 448;
       EvWriteFile (pemPath h args) (PEMFileContents args) 384] /\
  fs (provision h args w).2 !! pemPath h args
    = Some (File (PEMFileContents args) 384).
Proof.
  intros Hreq Hst Hret.
  destruct (os.mkdirAll h (Dir h (pemPath h args)) 448 (fs w)) as [m [e|]] eqn:Hmk.
  { destruct (provision_mkdir_fails h args w m e Hreq Hst Hmk) as (Hbad & _).
    rewrite Hbad in Hret. discriminate. }
  destruct (os.writeFile h (pemPath h args) (PEMFileContents args) 384 m)
    as [m' [e|]] eqn:Hwr.
  { destruct (provision_write_fails h args w m m' e Hreq Hst Hmk Hwr) as (Hbad & _).
    rewrite Hbad in Hret. discriminate. }
  destruct (provision_writes h args w m m' Hreq Hst Hmk Hwr) as (_ & Hev & Hfs).
  destruct (writeFile_fresh h _ _ _ 448 384 (fs w) m m' None Hmk
              (stat_missing _ _ _ Hst) Hwr) as (_ & ->).
  rewrite Hev, Hfs. split; [reflexivity|apply lookup_insert_eq].
Qed.



(** Idempotence, run after run: once a run has installed the certificate,
    running [Exec] again on the world it left writes nothing and changes
    nothing in the file system. *)
Lemma provisioning_twice (h : Host) (ctx : Context) (args : Args) (w : World)
    (mode : CredentialMode) :
  URL args <> "" ->
  credentialMode args = Some mode ->
  certRequired args = true ->
  os.stat h (fs w) (pemPath h args) = Some ENOENT ->
  returned (provision h args (slept h w)) = None ->
  let w1 := (Exec h ctx args w).2 in
  fs_writes (new_events h ctx args w1) = [] /\
  fs (Exec h ctx args w1).2 = fs w1.
Proof.
  intros Hurl Hmode Hreq Hn Hret w1.
  assert (Hfile : fs w1 !! pemPath h args
                  = Some (File (PEMFileContents args) 384)).
  { subst w1.
    destruct (Exec_fs_writes h ctx args w mode Hurl Hmode) as (_ & _ & Hfs).
    rewrite Hfs. apply (certificate_written h args (slept h w) Hreq Hn Hret). }
  destruct (Exec_fs_writes h ctx args w1 mode Hurl Hmode) as (Hwrites & _ & Hfs).
  destruct (provision_exists_effect h args (slept h w1) _ Hreq Hfile)
    as (_ & Hev & Hsame).
  rewrite Hwrites, Hfs, Hev, Hsame. split; reflexivity.
Qed.

(** C7. When the insecure field parses to true, [Exec] makes no call into
    the file system at all, whatever the certificate content is, and leaves
    the file system unchanged; and when it gets to the upload, the command
    line carries the insecure-transport flag in its place. *)
Theorem insecure_skips_certificate (h : Host) (ctx : Context) (args : Args)
    (w : World) :
  parseBoolOrDefault false (Insecure args) = true ->
  fs (Exec h ctx args w).2 = fs w /\
  fs_calls (new_events h ctx args w) = [] /\
  (forall mode tail,
     URL args <> "" -> credentialMode args = Some mode ->
     modeArgs args = inr tail ->
     uploads h ctx args w
       ([getJfrogBin h; "rt"; "u"; "--url " +:+ URL args]
          ++ retriesFlag args ++ modeFlags h mode ++ [flatFlag args]
          ++ threadsFlag args ++ ["--insecure-tls"] ++ tail)).
Proof.
  intros Hins.
  assert (Hreq : certRequired args = false).
  { unfold certRequired. rewrite Hins. apply andb_false_r. }
  assert (Hprov : forall w0, provision h args w0 = (inr tt, w0)).
  { intros w0. apply provision_skip. exact Hreq. }
  assert (Hnone : provision_events h args (slept h w) = []).
  { apply provision_events_of. rewrite Hprov. cbn [snd].
    symmetry. apply app_nil_r. }
  split; [|split].
  - destruct (String.eqb_spec (URL args) "") as [Hurl|Hurl].
    { rewrite (Exec_no_url h ctx args w Hurl). reflexivity. }
    destruct (credentialMode args) as [mode|] eqn:Hmode.
    2:{ rewrite (Exec_no_credentials h ctx args w Hurl Hmode). reflexivity. }
    destruct (Exec_fs_writes h ctx args w mode Hurl Hmode) as (_ & _ & Hfs).
    rewrite Hfs, Hprov. reflexivity.
  - destruct (String.eqb_spec (URL args) "") as [Hurl|Hurl].
    { destruct (missing_url_effects h ctx args w Hurl) as (_ & Hnew).
      rewrite Hnew. reflexivity. }
    destruct (credentialMode args) as [mode|] eqn:Hmode.
    2:{ assert (Hnew : new_events h ctx args w
                       = [traceLine (sleepCmd h); EvRun (sleepCmd h)]).
        { apply new_events_of.
          rewrite (Exec_no_credentials h ctx args w Hurl Hmode).
          apply events_slept. }
        rewrite Hnew. reflexivity. }
    destruct (Exec_fs_writes h ctx args w mode Hurl Hmode) as (_ & Hcalls & _).
    rewrite Hcalls, Hnone. reflexivity.
  - intros mode tail Hurl Hmode Htail.
    assert (Hret : returned (provision h args (slept h w)) = None).
    { rewrite Hprov. reflexivity. }
    pose proof (Exec_uploads h ctx args w mode tail Hurl Hmode Hret Htail)
      as (Hup & _).
    unfold commandLine, insecureFlag in Hup. rewrite Hins in Hup. exact Hup.
Qed.

Lemma insecure_skips_certificate_witness :
  fs (Exec linux tt insecure_cert empty_world).2 = fs empty_world /\
  fs_calls (new_events linux tt insecure_cert empty_world) = [] /\
  uploads linux tt insecure_cert empty_world
    ["jfrog"; "rt"; "u"; "--url https://example.com";
     "--user $PLUGIN_USERNAME"; "--password $PLUGIN_PASSWORD"; "--flat=false";
     "--insecure-tls"; dquote +:+ "build/app.zip" +:+ dquote; "libs/app.zip"].
Proof.
  destruct (insecure_skips_certificate linux tt insecure_cert empty_world)
    as (Hfs & Hcalls & Hup); [reflexivity|].
  split; [exact Hfs|]. split; [exact Hcalls|].
  exact (Hup UserPassword
             [dquote +:+ "build/app.zip" +:+ dquote; "libs/app.zip"]
             ltac:(discriminate) eq_refl eq_refl).
Defined.



(** ** The whole run, case by case *)

Lemma provision_skip_effect (h : Host) (args : Args) (w : World) :
  certRequired args = false ->
  returned (provision h args w) = None /\
  provision_events h args w = [] /\
  fs (provision h args w).2 = fs w.
Proof.
  intros Hreq. unfold provision_events.
  rewrite (provision_skip h args w Hreq). cbn [snd].
  rewrite drop_all. repeat split; reflexivity.
Qed.

(** The certificate step ends in one of the five ways of [Provisioned]. *)
Lemma provision_ran (h : Host) (args : Args) (w : World) :
  Provisioned h args (fs w)
    (returned (provision h args w))
    (provision_events h args w)
    (fs (provision h args w).2).
Proof.
  destruct (certRequired args) eqn:Hreq.
  - destruct (decide (os.stat h (fs w) (pemPath h args) = Some ENOENT))
      as [Hst|Hst].
    + destruct (os.mkdirAll h (Dir h (pemPath h args)) 448 (fs w))
        as [m [e|]] eqn:Hmk.
      * destruct (provision_mkdir_fails h args w m e Hreq Hst Hmk)
          as (-> & -> & ->).
        apply NoDirectory; assumption.
      * destruct (os.writeFile h (pemPath h args) (PEMFileContents args) 384 m)
          as [m' [e|]] eqn:Hwr.
        -- destruct (provision_write_fails h args w m m' e Hreq Hst Hmk Hwr)
             as (-> & -> & ->).
           eapply NotWritten; eassumption.
        -- destruct (provision_writes h args w m m' Hreq Hst Hmk Hwr)
             as (-> & -> & ->).
           destruct (writeFile_fresh h _ _ _ 448 384 (fs w) m m' None Hmk
                       (stat_missing _ _ _ Hst) Hwr) as (Hfree & ->).
           apply Written; try assumption. exact (stat_missing _ _ _ Hst).
    + destruct (provision_found_effect h args w Hreq Hst) as (-> & -> & ->).
      apply NotMissing; assumption.
  - destruct (provision_skip_effect h args w Hreq) as (-> & -> & ->).
    apply NotRequired. exact Hreq.
Qed.

Lemma events_provisioned (h : Host) (args : Args) (w : World) :
  events (provision h args (slept h w)).2
    = events w ++ [traceLine (sleepCmd h); EvRun (sleepCmd h)]
               ++ provision_events h args (slept h w).
Proof.
  destruct (provision_trace h args (slept h w)) as (cert & Hev & _ & _).
  rewrite (provision_events_of _ _ _ _ Hev), Hev, events_slept, <- app_assoc.
  reflexivity.
Qed.

(** A run of [Exec] ends in one of the five ways of [Ran]. *)
Lemma Exec_ran (h : Host) (ctx : Context) (args : Args) (w : World) :
  Ran h args w
    (returned (Exec h ctx args w))
    (new_events h ctx args w)
    (fs (Exec h ctx args w).2).
Proof.
  destruct (String.eqb_spec (URL args) "") as [Hurl|Hurl].
  { destruct (missing_url_effects h ctx args w Hurl) as (-> & ->).
    rewrite (Exec_no_url h ctx args w Hurl). apply NoURL. exact Hurl. }
  destruct (credentialMode args) as [mode|] eqn:Hmode.
  2:{ assert (Hnew : new_events h ctx args w
                     = [traceLine (sleepCmd h); EvRun (sleepCmd h)]).
      { apply new_events_of. rewrite (Exec_no_credentials h ctx args w Hurl Hmode).
        apply events_slept. }
      rewrite Hnew, (Exec_no_credentials h ctx args w Hurl Hmode).
      exact (NoCredentials h args w Hurl Hmode). }
  pose proof (provision_ran h args (slept h w)) as Hran.
  pose proof (events_provisioned h args w) as Hev.
  change (fs (slept h w)) with (fs w) in Hran.
  destruct (provision h args (slept h w)) as [[e|[]] w2] eqn:Hp;
    cbn [snd] in Hran, Hev;
    change (returned (inl e, w2)) with (Some e) in Hran ||
    change (returned (@inr error unit tt, w2)) with (@None error) in Hran.
  - assert (Hnew : new_events h ctx args w
                   = [traceLine (sleepCmd h); EvRun (sleepCmd h)]
                       ++ provision_events h args (slept h w)).
    { apply new_events_of.
      rewrite (Exec_certificate_error h ctx args w w2 mode e Hurl Hmode Hp).
      exact Hev. }
    rewrite Hnew, (Exec_certificate_error h ctx args w w2 mode e Hurl Hmode Hp).
    exact (NoCertificate h args w mode e _ _ Hurl Hmode Hran).
  - destruct (modeArgs args) as [e|tail] eqn:Htail.
    + assert (Hnew : new_events h ctx args w
                     = [traceLine (sleepCmd h); EvRun (sleepCmd h)]
                         ++ provision_events h args (slept h w)).
      { apply new_events_of.
        rewrite (Exec_mode_error h ctx args w w2 mode e Hurl Hmode Hp Htail).
        exact Hev. }
      rewrite Hnew, (Exec_mode_error h ctx args w w2 mode e Hurl Hmode Hp Htail).
      exact (NoMode h args w mode e _ _ Hurl Hmode Hran Htail).
    + set (tokens := commandLine h args (modeFlags h mode) tail).
      assert (Hnew : new_events h ctx args w
                     = [traceLine (sleepCmd h); EvRun (sleepCmd h)]
                         ++ provision_events h args (slept h w)
                         ++ [traceLine (uploadCmd h tokens);
                             EvRun (uploadCmd h tokens)]).
      { apply new_events_of.
        rewrite (Exec_invokes h ctx args w w2 mode tail Hurl Hmode Hp Htail).
        unfold invoke. cbn [snd events emit]. rewrite Hev, <- !app_assoc.
        reflexivity. }
      rewrite Hnew, (Exec_invokes h ctx args w w2 mode tail Hurl Hmode Hp Htail).
      rewrite returned_invoke.
      exact (Uploaded h args w mode tail _ _ Hurl Hmode Hran Htail).
Qed.

Lemma Provisioned_no_process (h : Host) (args : Args) (m0 m : gmap string Node)
    (r : option error) (cert : list Event) :
  Provisioned h args m0 r cert m -> spawned cert = [].
Proof. destruct 1; reflexivity. Qed.

(** The errors of the certificate step are the two wrapped ones. *)
Lemma Provisioned_error (h : Host) (args : Args) (m0 m : gmap string Node)
    (e : error) (cert : list Event) :
  Provisioned h args m0 (Some e) cert m ->
  (exists cause, e = CertDirError cause) \/ (exists cause, e = CertWriteError cause).
Proof.
  inversion 1; subst.
  - left. eexists. reflexivity.
  - right. eexists. reflexivity.
Qed.

(** The certificate step keeps every entry it finds. *)
Lemma Provisioned_keeps (h : Host) (args : Args) (m0 m : gmap string Node)
    (r : option error) (cert : list Event) (k : string) (n : Node) :
  Provisioned h args m0 r cert m -> m0 !! k = Some n -> m !! k = Some n.
Proof.
  destruct 1 as [| |m e Hreq Hst Hmk|m m' e Hreq Hst Hmk Hwr
                 |m Hreq Hst Hn Hmk Hfree]; intros Hk;
    try exact Hk.
  - eapply mkdirAll_keeps; eassumption.
  - pose proof (mkdirAll_keeps h _ 448 m0 m _ k n Hmk Hk) as Hkeep.
    assert (Hne : k <> pemPath h args).
    { intros ->. rewrite (stat_missing _ _ _ Hst) in Hk. discriminate. }
    pose proof (writeFile_frame h _ (PEMFileContents args) 384 m k Hne) as Hframe.
    rewrite Hwr in Hframe. cbn [fst] in Hframe. congruence.
  - pose proof (mkdirAll_keeps h _ 448 m0 m _ k n Hmk Hk) as Hkeep.
    rewrite lookup_insert_ne; [exact Hkeep|].
    intros Heq. subst k. rewrite Hfree in Hkeep. discriminate.
Qed.

Lemma modeArgs_error (args : Args) (e : error) :
  modeArgs args = inl e -> e = MissingSource \/ e = MissingTarget.
Proof.
  unfold modeArgs.
  destruct (negb (String.eqb (Spec args) "")); [discriminate|].
  destruct (String.eqb (Source args) ""); [intros [= <-]; left; reflexivity|].
  destruct (String.eqb (Target args) ""); [intros [= <-]; right; reflexivity|].
  discriminate.
Qed.

(** The processes of a run: the sleep, and at most the upload. *)
Lemma started_shape (h : Host) (ctx : Context) (args : Args) (w : World) :
  (started h ctx args w = [sleepCmd h] /\
   exists e, returned (Exec h ctx args w) = Some e) \/
  (exists mode tail,
     credentialMode args = Some mode /\ modeArgs args = inr tail /\
     started h ctx args w
       = [sleepCmd h; uploadCmd h (commandLine h args (modeFlags h mode) tail)] /\
     returned (Exec h ctx args w)
       = run_outcome h (uploadCmd h (commandLine h args (modeFlags h mode) tail))).
Proof.
  unfold started.
  destruct (Exec_ran h ctx args w)
    as [Hurl|Hurl Hmode|mode e cert m Hurl Hmode Hcert
       |mode e cert m Hurl Hmode Hcert Htail
       |mode tail cert m Hurl Hmode Hcert Htail].
  - left. split; [reflexivity|eexists; reflexivity].
  - left. split; [reflexivity|eexists; reflexivity].
  - left. rewrite spawned_app, (Provisioned_no_process _ _ _ _ _ _ Hcert).
    split; [reflexivity|eexists; reflexivity].
  - left. rewrite spawned_app, (Provisioned_no_process _ _ _ _ _ _ Hcert).
    split; [reflexivity|eexists; reflexivity].
  - right. exists mode, tail.
    rewrite !spawned_app, (Provisioned_no_process _ _ _ _ _ _ Hcert).
    repeat split; assumption || reflexivity.
Qed.

(** ** Further properties of the run *)

(** Steps through the explicit event list of a run, index by index. *)
Ltac walk_events Hi :=
  repeat match type of Hi with
         | [] !! _ = Some _ => discriminate Hi
         | (_ :: _) !! ?i = Some _ =>
             destruct i as [|i]; cbn [lookup list_lookup] in Hi;
             [ first [ discriminate Hi
                     | injection Hi as <-; eexists; split; reflexivity ]
             | ]
         end.

(** X1. Every process [Exec] runs is announced: the event just before the
    run of a command is its trace line on standard output, the plus sign
    followed by the command's arguments joined by single spaces. *)
Theorem every_run_is_traced (h : Host) (ctx : Context) (args : Args) (w : World)
    (i : nat) (c : exec.Cmd) :
  new_events h ctx args w !! i = Some (EvRun c) ->
  exists j,
    i = S j /\
    new_events h ctx args w !! j
      = Some (EvPrintf "+ %s\n" [strings.Join (exec.Args c) " "]).
Proof.
  destruct (Exec_ran h ctx args w)
    as [Hurl|Hurl Hmode|mode e cert m Hurl Hmode Hcert
       |mode e cert m Hurl Hmode Hcert Htail
       |mode tail cert m Hurl Hmode Hcert Htail];
    try (inversion Hcert; subst; clear Hcert);
    cbn [app]; unfold traceLine; intros Hi; walk_events Hi.
Qed.

Lemma every_run_is_traced_witness :
  exists j,
    3%nat = S j /\
    new_events linux tt scenario empty_world !! j
      = Some (EvPrintf "+ %s\n"
                [strings.Join
                   (exec.Args
                      (uploadCmd linux
                         ["jfrog"; "rt"; "u"; "--url https://example.com";
                          "--user $PLUGIN_USERNAME"; "--password $PLUGIN_PASSWORD";
                          "--flat=false"; dquote +:+ "build/app.zip" +:+ dquote;
                          "libs/app.zip"])) " "]).
Proof.
  apply (every_run_is_traced linux tt scenario empty_world 3).
  reflexivity.
Defined.

(** X2. Every command [Exec] runs is an invocation of the platform shell
    with exactly three arguments (the shell by its bare name, its command
    switch, one script), wired to the parent's standard output and error,
    in the parent's whole environment; the only addition ever made to that
    environment is the one override, appended last. *)
Theorem children_are_shell_invocations (h : Host) (ctx : Context) (args : Args)
    (w : World) (c : exec.Cmd) :
  In c (started h ctx args w) ->
  (exists s,
     exec.Args c
       = (if String.eqb (GOOS h) "windows" then ["powershell"; "-Command"; s]
          else ["sh"; "-c"; s])) /\
  exec.Stdout c = Some exec.os_Stdout /\
  exec.Stderr c = Some exec.os_Stderr /\
  (exec.Env c = Environ h \/
   exec.Env c = Environ h ++ ["JFROG_CLI_OFFER_CONFIG=false"]).
Proof.
  intros Hin.
  assert (Hc : c = sleepCmd h \/ exists tokens, c = uploadCmd h tokens).
  { destruct (started_shape h ctx args w)
      as [[Hst _]|(mode & tail & _ & _ & Hst & _)];
      rewrite Hst in Hin.
    - destruct Hin as [<-|[]]. left. reflexivity.
    - destruct Hin as [<-|[<-|[]]]; [left; reflexivity|].
      right. eexists. reflexivity. }
  destruct Hc as [->|(tokens & ->)];
    unfold sleepCmd, uploadCmd;
    destruct (String.eqb (GOOS h) "windows"); cbn;
    (split; [eexists; reflexivity|]); repeat split; auto.
Qed.

Lemma children_are_shell_invocations_witness :
  (exists s,
     exec.Args (sleepCmd windows) = ["powershell"; "-Command"; s]) /\
  exec.Stdout (sleepCmd windows) = Some exec.os_Stdout /\
  exec.Stderr (sleepCmd windows) = Some exec.os_Stderr /\
  (exec.Env (sleepCmd windows) = Environ windows \/
   exec.Env (sleepCmd windows)
     = Environ windows ++ ["JFROG_CLI_OFFER_CONFIG=false"]).
Proof.
  apply (children_are_shell_invocations windows tt scenario empty_world
           (sleepCmd windows)).
  left. reflexivity.
Defined.

(** X3. [Exec] returns nil only after a successful upload: when it reports
    no error, it has run the upload tool, after the sleep, and the tool
    itself ended without error. *)
Theorem nil_means_uploaded (h : Host) (ctx : Context) (args : Args) (w : World) :
  returned (Exec h ctx args w) = None ->
  exists tokens,
    uploads h ctx args w tokens /\
    run_outcome h (uploadCmd h tokens) = None.
Proof.
  intros Hnil.
  destruct (started_shape h ctx args w)
    as [[_ (e & He)]|(mode & tail & _ & _ & Hst & Hret)].
  - rewrite He in Hnil. discriminate.
  - eexists. split; [split; eassumption|].
    rewrite <- Hret. exact Hnil.
Qed.

Lemma nil_means_uploaded_witness :
  exists tokens,
    uploads linux tt scenario empty_world tokens /\
    run_outcome linux (uploadCmd linux tokens) = None.
Proof.
  apply (nil_means_uploaded linux tt scenario empty_world).
  reflexivity.
Defined.

(** X4. The errors of [Exec] are of seven kinds and no other.  Either the
    upload tool was never started and the error is one of the four
    validation errors or a wrapped certificate error, or the tool was run
    and the error is the one the tool ended with, unchanged. *)
Theorem error_taxonomy (h : Host) (ctx : Context) (args : Args) (w : World)
    (e : error) :
  returned (Exec h ctx args w) = Some e ->
  (started h ctx args w = [sleepCmd h] /\
   (e = MissingURL \/ e = MissingCredentials \/
    (exists cause, e = CertDirError cause) \/
    (exists cause, e = CertWriteError cause) \/
    e = MissingSource \/ e = MissingTarget)) \/
  (exists tokens,
     started h ctx args w = [sleepCmd h; uploadCmd h tokens] /\
     run_outcome h (uploadCmd h tokens) = Some e).
Proof.
  unfold started.
  destruct (Exec_ran h ctx args w)
    as [Hurl|Hurl Hmode|mode e' cert m Hurl Hmode Hcert
       |mode e' cert m Hurl Hmode Hcert Htail
       |mode tail cert m Hurl Hmode Hcert Htail];
    intros He.
  - injection He as <-. left. split; [reflexivity|]. left. reflexivity.
  - injection He as <-. left. split; [reflexivity|]. right. left. reflexivity.
  - injection He as <-. left.
    rewrite spawned_app, (Provisioned_no_process _ _ _ _ _ _ Hcert).
    split; [reflexivity|].
    destruct (Provisioned_error _ _ _ _ _ _ Hcert) as [Hd|Hw]; auto.
  - injection He as <-. left.
    rewrite spawned_app, (Provisioned_no_process _ _ _ _ _ _ Hcert).
    split; [reflexivity|].
    destruct (modeArgs_error _ _ Htail) as [->| ->]; auto 10.
  - right. eexists.
    rewrite !spawned_app, (Provisioned_no_process _ _ _ _ _ _ Hcert).
    split; [reflexivity|exact He].
Qed.

Lemma error_taxonomy_witness :
  (started read_only tt with_cert empty_world = [sleepCmd read_only] /\
   (CertDirError (PathError "mkdir" "/root" EACCES) = MissingURL \/
    CertDirError (PathError "mkdir" "/root" EACCES)
      = MissingCredentials \/
    (exists cause,
       CertDirError (PathError "mkdir" "/root" EACCES)
         = CertDirError cause) \/
    (exists cause,
       CertDirError (PathError "mkdir" "/root" EACCES)
         = CertWriteError cause) \/
    CertDirError (PathError "mkdir" "/root" EACCES)
      = MissingSource \/
    CertDirError (PathError "mkdir" "/root" EACCES)
      = MissingTarget)) \/
  (exists tokens,
     started read_only tt with_cert empty_world
       = [sleepCmd read_only; uploadCmd read_only tokens] /\
     run_outcome read_only (uploadCmd read_only tokens)
       = Some (CertDirError (PathError "mkdir" "/root" EACCES))).
Proof.
  apply (error_taxonomy read_only tt with_cert empty_world).
  reflexivity.
Defined.

(** X5. [Exec] never removes or overwrites anything: every file and every
    directory that is there before the run is there after it, with the same
    content and the same mode, whatever the configuration and however the
    run ends. *)
Theorem nothing_is_overwritten (h : Host) (ctx : Context) (args : Args)
    (w : World) (k : string) (n : Node) :
  fs w !! k = Some n ->
  fs (Exec h ctx args w).2 !! k = Some n.
Proof.
  intros Hk.
  destruct (Exec_ran h ctx args w)
    as [Hurl|Hurl Hmode|mode e cert m Hurl Hmode Hcert
       |mode e cert m Hurl Hmode Hcert Htail
       |mode tail cert m Hurl Hmode Hcert Htail];
    try exact Hk;
    eapply Provisioned_keeps; eassumption.
Qed.

Lemma nothing_is_overwritten_witness :
  fs (Exec linux tt with_cert stocked_world).2 !! "/root" = Some (Directory 493) /\
  fs (Exec linux tt with_cert stocked_world).2 !! "/root/.jfrog"
    = Some (Directory 448).
Proof.
  split.
  - apply (nothing_is_overwritten linux tt with_cert stocked_world).
    reflexivity.
  - vm_compute. reflexivity.
Defined.

(** The file-system calls of the certificate step, by their arguments. *)
Lemma Provisioned_calls (h : Host) (args : Args) (m0 m : gmap string Node)
    (r : option error) (cert : list Event) (e : Event) :
  Provisioned h args m0 r cert m ->
  In e (fs_calls cert) ->
  e = EvStat (pemPath h args) \/
  e = EvMkdirAll (Dir h (pemPath h args)) 448 \/
  e = EvWriteFile (pemPath h args) (PEMFileContents args) 384.
Proof.
  destruct 1; cbn [fs_calls List.filter]; intros Hin;
    repeat (destruct Hin as [<-|Hin]; [auto|]); destruct Hin.
Qed.

(** X6. [Exec] calls into the file system for the certificate only: each
    of its calls is the Stat of the certificate path, the MkdirAll of the
    directory of that path with mode 0700, or the WriteFile of the
    certificate content to that path with mode 0600. *)
Theorem file_system_calls_are_for_the_certificate (h : Host) (ctx : Context)
    (args : Args) (w : World) (e : Event) :
  In e (fs_calls (new_events h ctx args w)) ->
  e = EvStat (pemPath h args) \/
  e = EvMkdirAll (Dir h (pemPath h args)) 448 \/
  e = EvWriteFile (pemPath h args) (PEMFileContents args) 384.
Proof.
  destruct (Exec_ran h ctx args w)
    as [Hurl|Hurl Hmode|mode e' cert m Hurl Hmode Hcert
       |mode e' cert m Hurl Hmode Hcert Htail
       |mode tail cert m Hurl Hmode Hcert Htail];
    rewrite ?fs_calls_app; unfold traceLine;
    cbn [fs_calls List.filter app]; rewrite ?app_nil_r;
    intros Hin;
    try (destruct Hin);
    eapply Provisioned_calls; eassumption.
Qed.

Lemma file_system_calls_are_for_the_certificate_witness :
  EvMkdirAll "/root/.jfrog/security/certs" 448
    = EvStat (pemPath linux with_cert) \/
  EvMkdirAll "/root/.jfrog/security/certs" 448
    = EvMkdirAll (Dir linux (pemPath linux with_cert)) 448 \/
  EvMkdirAll "/root/.jfrog/security/certs" 448
    = EvWriteFile (pemPath linux with_cert) (PEMFileContents with_cert) 384.
Proof.
  apply (file_system_calls_are_for_the_certificate linux tt with_cert empty_world).
  right. left. reflexivity.
Defined.

(** X7. Credentials are validated before the certificate is looked at: a
    configuration without a resolvable credential mode makes [Exec] fail
    with MissingURL or MissingCredentials without a single call into the
    file system, whatever certificate it carries; no certificate is left
    behind, and nothing but the sleep is started. *)
Theorem credentials_come_before_the_certificate (h : Host) (ctx : Context)
    (args : Args) (w : World) :
  credentialMode args = None ->
  (returned (Exec h ctx args w) = Some MissingURL \/
   returned (Exec h ctx args w) = Some MissingCredentials) /\
  fs_calls (new_events h ctx args w) = [] /\
  fs (Exec h ctx args w).2 = fs w /\
  started h ctx args w = [sleepCmd h].
Proof.
  intros Hnone. unfold started.
  destruct (Exec_ran h ctx args w)
    as [Hurl|Hurl Hmode|mode e' cert m Hurl Hmode Hcert
       |mode e' cert m Hurl Hmode Hcert Htail
       |mode tail cert m Hurl Hmode Hcert Htail];
    try congruence.
  - split; [left; reflexivity|]. repeat split; reflexivity.
  - split; [right; reflexivity|]. repeat split; reflexivity.
Qed.

Lemma credentials_come_before_the_certificate_witness :
  (returned (Exec linux tt cert_without_credentials empty_world) = Some MissingURL \/
   returned (Exec linux tt cert_without_credentials empty_world)
     = Some MissingCredentials) /\
  fs_calls (new_events linux tt cert_without_credentials empty_world) = [] /\
  fs (Exec linux tt cert_without_credentials empty_world).2 = fs empty_world /\
  started linux tt cert_without_credentials empty_world = [sleepCmd linux].
Proof.
  apply (credentials_come_before_the_certificate
           linux tt cert_without_credentials empty_world).
  reflexivity.
Defined.

(** X8. The certificate work lies strictly between the two processes: the
    log of a run is the sleep (traced, then run), then a stretch that holds
    every file-system call of the run and starts no process, then at most
    the upload (traced, then run).  So no file is touched before the sleep
    has ended, and the upload tool never starts before the certificate step
    is over. *)
Theorem certificate_between_sleep_and_upload (h : Host) (ctx : Context)
    (args : Args) (w : World) :
  exists mid up,
    new_events h ctx args w
      = [traceLine (sleepCmd h); EvRun (sleepCmd h)] ++ mid ++ up /\
    spawned mid = [] /\
    fs_calls (new_events h ctx args w) = fs_calls mid /\
    (up = [] \/
     exists tokens,
       up = [traceLine (uploadCmd h tokens); EvRun (uploadCmd h tokens)]).
Proof.
  destruct (Exec_ran h ctx args w)
    as [Hurl|Hurl Hmode|mode e' cert m Hurl Hmode Hcert
       |mode e' cert m Hurl Hmode Hcert Htail
       |mode tail cert m Hurl Hmode Hcert Htail].
  - exists [], []. repeat split; auto.
  - exists [], []. repeat split; auto.
  - exists cert, []. rewrite app_nil_r.
    split; [reflexivity|]. split; [eapply Provisioned_no_process; eassumption|].
    split; [rewrite fs_calls_app; reflexivity|left; reflexivity].
  - exists cert, []. rewrite app_nil_r.
    split; [reflexivity|]. split; [eapply Provisioned_no_process; eassumption|].
    split; [rewrite fs_calls_app; reflexivity|left; reflexivity].
  - exists cert. eexists.
    split; [reflexivity|]. split; [eapply Provisioned_no_process; eassumption|].
    split; [|right; eexists; reflexivity].
    rewrite !fs_calls_app. cbn. apply app_nil_r.
Qed.

Lemma provision_GOOS (h : Host) (goos : string) (args : Args) :
  String.eqb (GOOS h) "windows" = false ->
  String.eqb goos "windows" = false ->
  provision (with_GOOS h goos) args = provision h args.
Proof.
  intros Hh Hg. unfold provision, pemPath. cbn [GOOS with_GOOS].
  rewrite Hh, Hg. reflexivity.
Qed.

Lemma staged_GOOS (h : Host) (goos : string) (args : Args) (w : World) :
  String.eqb (GOOS h) "windows" = false ->
  String.eqb goos "windows" = false ->
  staged (with_GOOS h goos) args w = staged h args w.
Proof.
  intros Hh Hg. unfold staged. rewrite (provision_GOOS h goos args Hh Hg).
  assert (Hsleep : slept (with_GOOS h goos) w = slept h w).
  { unfold slept, sleepCmd, traceLine. cbn [GOOS with_GOOS Environ exec.Args].
    rewrite Hh, Hg. reflexivity. }
  rewrite Hsleep.
  destruct (String.eqb (URL args) ""); [reflexivity|].
  destruct (credentialMode args) as [mode|]; [|reflexivity].
  destruct (provision h args (slept h w)) as [[e|[]] w2]; [reflexivity|].
  destruct (modeArgs args) as [e|tail]; [reflexivity|].
  unfold invoke, uploadCmd, traceLine, commandLine, modeFlags, getJfrogBin,
    getEnvPrefix.
  cbn [GOOS with_GOOS Environ run_outcome exec.Args].
  rewrite Hh, Hg. reflexivity.
Qed.

(** X9. The platform matters only through the one test for the name
    windows: on any two platforms that are both not windows (linux, darwin,
    freebsd, a misspelt Windows, ...) the runs of [Exec] coincide, down to
    the shell, the binary, the variable prefix and the certificate path. *)
Theorem non_windows_platforms_agree (h : Host) (goos : string) (ctx : Context)
    (args : Args) (w : World) :
  GOOS h <> "windows" ->
  goos <> "windows" ->
  Exec (with_GOOS h goos) ctx args w = Exec h ctx args w.
Proof.
  intros Hh Hg. rewrite !Exec_staged.
  apply staged_GOOS; apply String.eqb_neq; assumption.
Qed.

Lemma non_windows_platforms_agree_witness :
  Exec (with_GOOS linux "Windows") tt with_cert empty_world
    = Exec linux tt with_cert empty_world.
Proof.
  apply (non_windows_platforms_agree linux "Windows" tt with_cert empty_world);
    discriminate.
Defined.

Lemma staged_SpecVars (h : Host) (args : Args) (w : World) (vars : string) :
  String.eqb (Spec args) "" = true ->
  staged h (with_SpecVars args vars) w = staged h args w.
Proof.
  intros Hspec.
  unfold staged, provision, certRequired, pemPath, modeArgs, commandLine,
    retriesFlag, flatFlag, threadsFlag, insecureFlag, positionals, credentialMode.
  cbn [with_SpecVars Level Username Password APIKey AccessToken URL Source Target
       Retries Flat Spec Threads SpecVars Insecure PEMFileContents PEMFilePath].
  rewrite Hspec. reflexivity.
Qed.

(** X10. Spec variables count only with a spec: when no spec file is given,
    [Exec] never reads the spec variables, and the run is the same whatever
    they are; they are dropped without an error. *)
Theorem spec_vars_need_a_spec (h : Host) (ctx : Context) (args : Args)
    (w : World) (vars : string) :
  Spec args = "" ->
  Exec h ctx (with_SpecVars args vars) w = Exec h ctx args w.
Proof.
  intros Hspec. rewrite !Exec_staged.
  apply staged_SpecVars. apply eqb_empty_true. exact Hspec.
Qed.

Lemma spec_vars_need_a_spec_witness :
  Exec linux tt (with_SpecVars scenario "a=1;b=2") empty_world
    = Exec linux tt scenario empty_world.
Proof.
  apply (spec_vars_need_a_spec linux tt scenario empty_world "a=1;b=2").
  reflexivity.
Defined.

Lemma provision_not_required (h : Host) (args : Args) :
  certRequired args = false -> provision h args = ret tt.
Proof. intros Hreq. unfold provision. rewrite Hreq. reflexivity. Qed.

Lemma staged_certificate (h : Host) (args : Args) (w : World)
    (content path : string) :
  certRequired args = false ->
  certRequired (with_certificate args content path) = false ->
  staged h (with_certificate args content path) w = staged h args w.
Proof.
  intros Hreq Hreq'. unfold staged.
  rewrite (provision_not_required h args Hreq),
    (provision_not_required h _ Hreq').
  reflexivity.
Qed.

(** X11. Insecure mode makes the certificate fields irrelevant: when the
    insecure field parses to true, the run of [Exec] is the same whatever
    the certificate content and the certificate path are. *)
Theorem insecure_ignores_the_certificate (h : Host) (ctx : Context) (args : Args)
    (w : World) (content path : string) :
  parseBoolOrDefault false (Insecure args) = true ->
  Exec h ctx (with_certificate args content path) w = Exec h ctx args w.
Proof.
  intros Hins. rewrite !Exec_staged.
  apply staged_certificate; unfold certRequired;
    cbn [with_certificate Insecure PEMFileContents];
    rewrite Hins; apply andb_false_r.
Qed.

Lemma insecure_ignores_the_certificate_witness :
  Exec linux tt (with_certificate insecure_cert "" "/tmp/other.pem") empty_world
    = Exec linux tt insecure_cert empty_world.
Proof.
  apply (insecure_ignores_the_certificate
           linux tt insecure_cert empty_world "" "/tmp/other.pem").
  reflexivity.
Defined.

(** X12. A certificate path without certificate content does nothing: when
    the content is empty, [Exec] never reads the path, and the run is the
    same whatever the path is. *)
Theorem certificate_path_needs_content (h : Host) (ctx : Context) (args : Args)
    (w : World) (path : string) :
  PEMFileContents args = "" ->
  Exec h ctx (with_certificate args "" path) w = Exec h ctx args w.
Proof.
  intros Hempty. rewrite !Exec_staged.
  apply staged_certificate; unfold certRequired;
    cbn [with_certificate Insecure PEMFileContents];
    rewrite ?Hempty; reflexivity.
Qed.

Lemma certificate_path_needs_content_witness :
  Exec linux tt (with_certificate scenario "" "/tmp/cert.pem") stocked_world
    = Exec linux tt scenario stocked_world.
Proof.
  apply (certificate_path_needs_content linux tt scenario stocked_world
           "/tmp/cert.pem").
  reflexivity.
Defined.

Lemma existsb_eqb_In (s : string) (l : list string) :
  existsb (String.eqb s) l = true <-> In s l.
Proof.
  rewrite existsb_exists. split.
  - intros (x & Hin & Heq). apply String.eqb_eq in Heq. subst x. exact Hin.
  - intros Hin. exists s. split; [exact Hin|apply String.eqb_refl].
Qed.

Lemma parseBoolOrDefault_unknown (d : bool) (s : string) :
  ~ In s true_spellings -> ~ In s false_spellings -> parseBoolOrDefault d s = d.
Proof.
  intros Ht Hf. unfold parseBoolOrDefault, strconv.ParseBool.
  destruct (existsb (String.eqb s) ["1"; "t"; "T"; "TRUE"; "true"; "True"]) eqn:Et.
  { exfalso. apply Ht. apply existsb_eqb_In. exact Et. }
  destruct (existsb (String.eqb s) ["0"; "f"; "F"; "FALSE"; "false"; "False"]) eqn:Ef.
  { exfalso. apply Hf. apply existsb_eqb_In. exact Ef. }
  reflexivity.
Qed.

(** X13. parseBoolOrDefault falls back on the default exactly outside the
    twelve spellings strconv.ParseBool accepts, and ignores the default on
    them: the six spellings of true give true, the six of false give false,
    and everything else gives the default, in particular the empty string
    and every string longer than five characters (spellings are case
    sensitive: only the three casings listed are accepted). *)
Theorem parseBoolOrDefault_spellings (d : bool) (s : string) :
  (In s true_spellings -> parseBoolOrDefault d s = true) /\
  (In s false_spellings -> parseBoolOrDefault d s = false) /\
  (~ In s true_spellings -> ~ In s false_spellings ->
   parseBoolOrDefault d s = d) /\
  (s = "" \/ (5 < String.length s)%nat -> parseBoolOrDefault d s = d).
Proof.
  split; [|split; [|split]].
  - intros Hin. unfold true_spellings in Hin.
    repeat (destruct Hin as [<-|Hin]; [reflexivity|]). destruct Hin.
  - intros Hin. unfold false_spellings in Hin.
    repeat (destruct Hin as [<-|Hin]; [reflexivity|]). destruct Hin.
  - apply parseBoolOrDefault_unknown.
  - intros Hs. apply parseBoolOrDefault_unknown; intros Hin;
      unfold true_spellings, false_spellings in Hin;
      repeat (destruct Hin as [<-|Hin];
              [destruct Hs as [Hs|Hs]; [discriminate Hs|cbn in Hs; lia]|]);
      destruct Hin.
Qed.

(** X14. The world decides at most whether the upload is run, never what
    is run: in any two worlds, the runs of [Exec] on one configuration
    start the same processes, unless one of them stops after the sleep. *)
Theorem upload_command_ignores_the_world (h : Host) (ctx : Context) (args : Args)
    (w w' : World) :
  started h ctx args w = started h ctx args w' \/
  started h ctx args w = [sleepCmd h] \/
  started h ctx args w' = [sleepCmd h].
Proof.
  destruct (started_shape h ctx args w)
    as [[Hst _]|(mode & tail & Hmode & Htail & Hst & _)]; [auto|].
  destruct (started_shape h ctx args w')
    as [[Hst' _]|(mode' & tail' & Hmode' & Htail' & Hst' & _)]; [auto|].
  left. rewrite Hst, Hst'.
  assert (mode' = mode) by congruence.
  assert (tail' = tail) by congruence.
  subst. reflexivity.
Qed.

(** X15. The success message tells the truth: if a run prints that it has
    created the pem file at a path, then that path is the certificate path,
    nothing was there before the run, and after the run the file is there
    with the certificate content and mode 0600. *)
Theorem success_message_is_truthful (h : Host) (ctx : Context) (args : Args)
    (w : World) (p : string) :
  In (EvPrintf "Successfully created pem file at %q\n" [p])
     (new_events h ctx args w) ->
  p = pemPath h args /\
  fs w !! p = None /\
  fs (Exec h ctx args w).2 !! p = Some (File (PEMFileContents args) 384).
Proof.
  destruct (Exec_ran h ctx args w)
    as [Hurl|Hurl Hmode|mode e' cert m Hurl Hmode Hcert
       |mode e' cert m Hurl Hmode Hcert Htail
       |mode tail cert m Hurl Hmode Hcert Htail];
    try (inversion Hcert; subst; clear Hcert);
    cbn [app]; unfold traceLine; intros Hin;
    repeat (destruct Hin as [Heq|Hin]; [try discriminate Heq|]);
    try (destruct Hin);
    injection Heq as <-;
    (split; [reflexivity|]); (split; [assumption|]); apply lookup_insert_eq.
Qed.

Lemma success_message_is_truthful_witness :
  "/root/.jfrog/security/certs/cert.pem" = pemPath linux with_cert /\
  fs stocked_world !! "/root/.jfrog/security/certs/cert.pem" = None /\
  fs (Exec linux tt with_cert stocked_world).2
    !! "/root/.jfrog/security/certs/cert.pem" = Some (File "CERT" 384).
Proof.
  apply (success_message_is_truthful linux tt with_cert stocked_world
           "/root/.jfrog/security/certs/cert.pem").
  do 6 right. left. reflexivity.
Defined.

(** X16. A Stat that fails otherwise than with not-exist ends the
    certificate step silently.  When the step is reached and Stat of the
    certificate path fails because a proper ancestor of the path is a file,
    or because the search is denied, [Exec] makes no directory and writes no
    file, reports no error of its own, and goes on to the later steps: the
    upload is then run without the certificate having been installed. *)
Theorem unreachable_certificate_is_skipped (h : Host) (ctx : Context)
    (args : Args) (w : World) (mode : CredentialMode) (errno : Errno) :
  URL args <> "" ->
  credentialMode args = Some mode ->
  certRequired args = true ->
  os.stat h (fs w) (pemPath h args) = Some errno ->
  errno <> ENOENT ->
  fs_calls (new_events h ctx args w) = [EvStat (pemPath h args)] /\
  fs (Exec h ctx args w).2 = fs w /\
  returned (Exec h ctx args w) = remaining_outcome h args mode.
Proof.
  intros Hurl Hmode Hreq Hst Hne.
  assert (Hnot : os.stat h (fs (slept h w)) (pemPath h args) <> Some ENOENT).
  { change (fs (slept h w)) with (fs w). rewrite Hst. congruence. }
  destruct (provision_found_effect h args (slept h w) Hreq Hnot)
    as (Hret & Hev & Hfs').
  destruct (Exec_fs_writes h ctx args w mode Hurl Hmode) as (_ & Hcalls & Hfs).
  rewrite Hcalls, Hfs, Hev, Hfs'.
  split; [reflexivity|]. split; [reflexivity|].
  apply (Exec_continues h ctx args w mode Hurl Hmode Hret).
Qed.

(** The home directory is a regular file: the certificate is not installed,
    and the upload is made all the same. *)
Lemma unreachable_certificate_is_skipped_witness :
  fs_calls (new_events linux tt with_cert blocked_world)
    = [EvStat "/root/.jfrog/security/certs/cert.pem"] /\
  fs (Exec linux tt with_cert blocked_world).2 = fs blocked_world /\
  returned (Exec linux tt with_cert blocked_world) = None.
Proof.
  apply (unreachable_certificate_is_skipped
           linux tt with_cert blocked_world UserPassword ENOTDIR);
    [discriminate|reflexivity|reflexivity|reflexivity|discriminate].
Defined.
